(** * PyHIS.core: the lazy-loading and caching state machine

    A shallow embedding of [src/pyhis/core.py].  The three entities
    [Source], [Site] and [TimeSeries] are records; every property and
    method of the module is a computation in a small state-and-exception
    monad over the receiver ([self]) and the world.  The world holds what
    the module can reach outside itself: the state of the cache store and
    a chronological trace of the calls made to the external collaborators
    (the suds client, the [cache] module), interleaved with the
    assignments to the lazily populated attributes. *)

From stdpp Require Import gmap strings list fin_maps.
From Stdlib Require Import ZArith.

Set Default Proof Using "Type".
Open Scope string_scope.

(** ** Exceptions and results *)

(** The exceptions the module raises or provokes. *)
Inductive PyExc : Type :=
| NotImplementedError
| IndexError
| AttributeError
| TypeError
| ValueError.

(** Outcome of evaluating a Python expression or call. *)
Inductive result (A : Type) : Type :=
| Return (a : A)
| Raise (e : PyExc).
Arguments Return {A} a.
Arguments Raise {A} e.

(** A computation over a state [S].  The state reached when an exception
    is raised is kept: Python does not roll assignments back. *)
Definition M (S A : Type) : Type := S → result A * S.

#[global] Instance M_ret {S} : MRet (M S) := λ A a st, (Return a, st).
#[global] Instance M_bind {S} : MBind (M S) := λ A B f m st,
  match m st with
  | (Return a, st') => f a st'
  | (Raise e, st') => (Raise e, st')
  end.

Definition raise {S A} (e : PyExc) : M S A := λ st, (Raise e, st).

(** [seq[i]] on a Python sequence. *)
Definition getitem {S A} (l : list A) (i : nat) : M S A :=
  match l !! i with
  | Some a => mret a
  | None => raise IndexError
  end.

(** [[f(x) for x in l]], and the generator [(f(x) for x in l)] consumed
    in order: [f] runs on each element in turn; an exception ends the
    loop. *)
Fixpoint comprehension {S A B} (f : A → M S B) (l : list A) : M S (list B) :=
  match l with
  | [] => mret []
  | x :: l => y ← f x; ys ← comprehension f l; mret (y :: ys)
  end.

(** ** Data model *)

Section Model.
Context {Float Datetime Quantity TimeSeriesResponse CacheState : Type}.

(** [class Units] *)
Record Units : Type := {
  Units_name : string;
  Units_abbreviation : string;
  Units_code : string }.

(** [class Variable] ([Variable] is a reserved word here). *)
Record PyVariable : Type := {
  Variable_name : string;
  Variable_code : string;
  Variable_id : Z;
  Variable_vocabulary : string;
  Variable_units : Units;
  Variable_no_data_value : Float }.

(** [shapely.geometry.Point(longitude, latitude)] *)
Record Point : Type := { Point_x : Float; Point_y : Float }.

(** The object built by [suds.client.Client(wsdl_url)]: a client for the
    service described at [wsdl_url]. *)
Record Client : Type := { Client_url : string }.

(** A back-reference does not own its target.  It is modelled by a handle
    carrying what the module reads through it; those attributes are
    assigned in [__init__] and nowhere else. *)
Record SourceRef : Type := {
  ref_url : string;
  ref_suds_client : Client }.

Record SiteRef : Type := {
  ref_source : SourceRef;
  ref_network : string;
  ref_code : string }.

(** A pandas Series: timestamp-indexed measurements.  The class default
    [()] of [_series] and an empty Series both have length 0 and are both
    the empty list here. *)
Definition Series : Type := list (Datetime * Float).

(** [class TimeSeries] *)
Record TimeSeries : Type := {
  TimeSeries_variable : PyVariable;
  TimeSeries_count : Z;
  TimeSeries_method : string;
  TimeSeries_quality_control_level : string;
  TimeSeries_begin_datetime : Datetime;
  TimeSeries_end_datetime : Datetime;
  TimeSeries_site : SiteRef;
  TimeSeries__series : Series;
  TimeSeries__quantity : option Quantity }.

(** The site-detail payload of [GetSiteInfoObject], as far as the module
    looks into it: [.site], [.site[0].seriesCatalog],
    [.seriesCatalog[0].series]. *)
Record WmlSeries : Type := {
  wml_variable : PyVariable;
  wml_count : Z;
  wml_method : string;
  wml_quality_control_level : string;
  wml_begin_datetime : Datetime;
  wml_end_datetime : Datetime }.

Record SeriesCatalog : Type := { series : list WmlSeries }.

Record SiteEntry : Type := { seriesCatalog : list SeriesCatalog }.

Record SiteInfoResponse : Type := { SiteInfoResponse_site : list SiteEntry }.

(** One site descriptor of the [GetSites] response. *)
Record WmlSiteInfo : Type := {
  wml_code : string;
  wml_name : string;
  wml_id : Z;
  wml_network : string;
  wml_latitude : Float;
  wml_longitude : Float }.

Record SitesResponse : Type := { SitesResponse_site : list WmlSiteInfo }.

(** [pandas.DataFrame(ts_dict)], represented by the dict it is built
    from: [DataFrame_data] is the constructor's argument, whose keys name
    the columns.  What pandas computes from the values (the rows, aligned
    on the union of the series' timestamps and padded where a series has
    none) is not represented, nor is a construction that pandas refuses. *)
Record DataFrame : Type := { DataFrame_data : gmap string Series }.

(** [class Site] *)
Record Site : Type := {
  Site_code : string;
  Site_name : string;
  Site_id : Z;
  Site_network : string;
  Site_location : Point;
  Site_source : SourceRef;
  Site__use_cache : bool;
  Site__site_info : option SiteInfoResponse;
  Site__timeseries_list : list TimeSeries;
  Site__dataframe : option DataFrame }.

(** [class Source] *)
Record Source : Type := {
  Source_url : string;
  Source_suds_client : Client;
  Source__sites : gmap string Site;
  Source__use_cache : bool }.

Definition Source_ref (s : Source) : SourceRef :=
  {| ref_url := Source_url s; ref_suds_client := Source_suds_client s |}.

Definition Site_ref (s : Site) : SiteRef :=
  {| ref_source := Site_source s;
     ref_network := Site_network s;
     ref_code := Site_code s |}.

(** ** The world outside the module *)

(** The calls that do I/O or reach the cache store: the construction of
    a suds client, which reads the service description at the URL it is
    given; the three operations of the remote service; the four entry
    points of the cache module.  Library calls that only compute a value
    ([shapely.geometry.Point], [strftime], the parser of [util],
    [pandas.DataFrame], [dict], [len]) are functions, not events. *)
Inductive Call : Type :=
| suds_client_Client (wsdl_url : string)
| GetSites (c : Client) (arg : string)
| GetSiteInfoObject (c : Client) (arg : string)
| GetValuesObject (c : Client) (site variable begin_date end_date : string)
| cache__get_cached_sites (src : SourceRef)
| cache__update_cache_sites (site_list : list Site) (src : SourceRef)
| cache__get_cached_timeseries_list (site : SiteRef)
| cache__update_cache_timeseries (site : Site).

(** The lazily populated attributes.  An assignment to one of them is
    recorded in the trace, so that the trace tells in which order the
    attributes were populated and the calls made. *)
Inductive Attr : Type :=
| A_sites
| A_site_info
| A_timeseries_list
| A_dataframe
| A_series
| A_quantity.

Inductive Event : Type :=
| Called (c : Call)
| Assigned (a : Attr).

Record World : Type := {
  trace : list Event;
  cache_state : CacheState }.

(** The three operations of the remote service. *)
Definition is_remote (e : Event) : bool :=
  match e with
  | Called (GetSites _ _)
  | Called (GetSiteInfoObject _ _)
  | Called (GetValuesObject _ _ _ _ _) => true
  | _ => false
  end.

Definition is_GetSites (e : Event) : bool :=
  match e with Called (GetSites _ _) => true | _ => false end.

Definition is_GetSiteInfoObject (e : Event) : bool :=
  match e with Called (GetSiteInfoObject _ _) => true | _ => false end.

Definition is_GetValuesObject (e : Event) : bool :=
  match e with Called (GetValuesObject _ _ _ _ _) => true | _ => false end.

Definition count (p : Event → bool) (t : list Event) : nat :=
  length (List.filter p t).

(** The [cache] module ([from . import cache]) is not part of this file;
    its four entry points are parameters acting on the cache store. *)
Record CacheModule : Type := {
  _get_cached_sites : Source → CacheState → gmap string Site;
  _update_cache_sites : list Site → Source → CacheState → CacheState;
  _get_cached_timeseries_list : Site → CacheState → list TimeSeries;
  _update_cache_timeseries : Site → CacheState → CacheState }.

(** What the module imports: the remote service behind a suds client
    (its answers are fixed: the remote state does not change between
    calls), the library functions whose result the module branches on,
    and the module-level name [cache], which is [None] when the import
    failed or [cache.USE_CACHE] is false. *)
Record Env : Type := {
  service_GetSites : Client → string → SitesResponse;
  service_GetSiteInfoObject : Client → string → SiteInfoResponse;
  service_GetValuesObject :
    Client → string → string → string → string → TimeSeriesResponse;
  strftime : Datetime → string → string;
  util__pandas_series_from_wml_TimeSeriesResponseType :
    TimeSeriesResponse → Series * Quantity;
  Quantity_bool : Quantity → bool;
  DataFrame_bool : DataFrame → result bool;
  cache : option CacheModule }.

(** ** Plumbing: the receiver, the trace, the cache store *)

Definition get_self {Self} : M (Self * World) Self :=
  λ st, (Return st.1, st).

Definition set_self {Self} (f : Self → Self) : M (Self * World) unit :=
  λ st, (Return tt, (f st.1, st.2)).

(** The world after the events [evs] have happened, in that order. *)
Definition extend (w : World) (evs : list Event) : World :=
  {| trace := trace w ++ evs; cache_state := cache_state w |}.

Definition emit : Event → M World unit :=
  λ e w, (Return tt, extend w [e]).

(** A computation on the world alone, run from inside a method. *)
Definition lift {Self A} (m : M World A) : M (Self * World) A :=
  λ st, let '(r, w') := m st.2 in (r, (st.1, w')).

Definition call {Self} (c : Call) : M (Self * World) unit :=
  lift (emit (Called c)).

(** [self.attr = value], for a lazily populated attribute. *)
Definition assign {Self} (a : Attr) (f : Self → Self) : M (Self * World) unit :=
  set_self f;; lift (emit (Assigned a)).

(** The world after the cache store has been rewritten by [f]. *)
Definition store (f : CacheState → CacheState) (w : World) : World :=
  {| trace := trace w; cache_state := f (cache_state w) |}.

Definition get_cache_state {Self} : M (Self * World) CacheState :=
  λ st, (Return (cache_state st.2), st).

Definition set_cache_state {Self} (f : CacheState → CacheState)
  : M (Self * World) unit :=
  λ st, (Return tt, (st.1, store f st.2)).

Definition of_result {S A} (r : result A) : M S A := λ st, (r, st).

(** [dict(pairs)]: a later pair replaces an earlier one with the same key. *)
Definition dict {V} (pairs : list (string * V)) : gmap string V :=
  foldl (λ m kv, <[kv.1 := kv.2]> m) ∅ pairs.

(** ** Attribute stores *)

Definition Site_set__site_info (v : option SiteInfoResponse) (s : Site) : Site :=
  {| Site_code := Site_code s; Site_name := Site_name s; Site_id := Site_id s;
     Site_network := Site_network s; Site_location := Site_location s;
     Site_source := Site_source s; Site__use_cache := Site__use_cache s;
     Site__site_info := v;
     Site__timeseries_list := Site__timeseries_list s;
     Site__dataframe := Site__dataframe s |}.

Definition Site_set__timeseries_list (v : list TimeSeries) (s : Site) : Site :=
  {| Site_code := Site_code s; Site_name := Site_name s; Site_id := Site_id s;
     Site_network := Site_network s; Site_location := Site_location s;
     Site_source := Site_source s; Site__use_cache := Site__use_cache s;
     Site__site_info := Site__site_info s;
     Site__timeseries_list := v;
     Site__dataframe := Site__dataframe s |}.

Definition Site_set__dataframe (v : option DataFrame) (s : Site) : Site :=
  {| Site_code := Site_code s; Site_name := Site_name s; Site_id := Site_id s;
     Site_network := Site_network s; Site_location := Site_location s;
     Site_source := Site_source s; Site__use_cache := Site__use_cache s;
     Site__site_info := Site__site_info s;
     Site__timeseries_list := Site__timeseries_list s;
     Site__dataframe := v |}.

Definition Source_set__sites (v : gmap string Site) (s : Source) : Source :=
  {| Source_url := Source_url s; Source_suds_client := Source_suds_client s;
     Source__sites := v; Source__use_cache := Source__use_cache s |}.

Definition TimeSeries_set__series (v : Series) (t : TimeSeries) : TimeSeries :=
  {| TimeSeries_variable := TimeSeries_variable t;
     TimeSeries_count := TimeSeries_count t;
     TimeSeries_method := TimeSeries_method t;
     TimeSeries_quality_control_level := TimeSeries_quality_control_level t;
     TimeSeries_begin_datetime := TimeSeries_begin_datetime t;
     TimeSeries_end_datetime := TimeSeries_end_datetime t;
     TimeSeries_site := TimeSeries_site t;
     TimeSeries__series := v;
     TimeSeries__quantity := TimeSeries__quantity t |}.

Definition TimeSeries_set__quantity (v : option Quantity) (t : TimeSeries)
  : TimeSeries :=
  {| TimeSeries_variable := TimeSeries_variable t;
     TimeSeries_count := TimeSeries_count t;
     TimeSeries_method := TimeSeries_method t;
     TimeSeries_quality_control_level := TimeSeries_quality_control_level t;
     TimeSeries_begin_datetime := TimeSeries_begin_datetime t;
     TimeSeries_end_datetime := TimeSeries_end_datetime t;
     TimeSeries_site := TimeSeries_site t;
     TimeSeries__series := TimeSeries__series t;
     TimeSeries__quantity := v |}.

(** ** Constructors *)

(** [Units.__init__] *)
Definition Units___init__ (name abbreviation code : string) : M World Units :=
  mret {| Units_name := name; Units_abbreviation := abbreviation;
          Units_code := code |}.

(** [Variable.__init__] *)
Definition Variable___init__ (name code : string) (id : Z) (vocabulary : string)
    (units : Units) (no_data_value : Float) : M World PyVariable :=
  mret {| Variable_name := name; Variable_code := code; Variable_id := id;
          Variable_vocabulary := vocabulary; Variable_units := units;
          Variable_no_data_value := no_data_value |}.

(** [TimeSeries.__init__]; [_series] and [_quantity] keep the class
    defaults [()] and [None]. *)
Definition TimeSeries___init__ (variable : PyVariable) (count : Z)
    (method quality_control_level : string)
    (begin_datetime end_datetime : Datetime) (site : SiteRef)
  : M World TimeSeries :=
  mret {| TimeSeries_variable := variable;
          TimeSeries_count := count;
          TimeSeries_method := method;
          TimeSeries_quality_control_level := quality_control_level;
          TimeSeries_begin_datetime := begin_datetime;
          TimeSeries_end_datetime := end_datetime;
          TimeSeries_site := site;
          TimeSeries__series := [];
          TimeSeries__quantity := None |}.

(** [shapely.geometry.Point(x, y)]: the point with these coordinates.
    It converts each coordinate to a float, so a coordinate that is
    [None], the default of [Site.__init__], is a [TypeError]. *)
Definition shapely_geometry_Point (x y : option Float) : result Point :=
  match x, y with
  | Some x, Some y => Return {| Point_x := x; Point_y := y |}
  | _, _ => Raise TypeError
  end.

(** [Site.__init__]; [latitude] and [longitude] default to [None];
    [_timeseries_list], [_dataframe] and [_site_info] keep the class
    defaults [()], [None] and [None]. *)
Definition Site___init__ (code name : string) (id : Z) (network : string)
    (latitude longitude : option Float) (source : SourceRef) (use_cache : bool)
  : M World Site :=
  location ← of_result (shapely_geometry_Point longitude latitude);
  mret {| Site_code := code; Site_name := name; Site_id := id;
          Site_network := network;
          Site_location := location;
          Site_source := source;
          Site__use_cache := use_cache;
          Site__site_info := None;
          Site__timeseries_list := [];
          Site__dataframe := None |}.

(** [Source.__init__]: it builds the suds client; [_sites] keeps the
    class default [{}]. *)
Definition Source___init__ (wsdl_url : string) (use_cache : bool)
  : M World Source :=
  emit (Called (suds_client_Client wsdl_url));;
  mret {| Source_url := wsdl_url;
          Source_suds_client := {| Client_url := wsdl_url |};
          Source__sites := ∅;
          Source__use_cache := use_cache |}.

(** ** The helpers of [util] that build entities *)

(** Modelled from the spec: [util._site_from_wml_siteInfo(site, source)]
    is not in the file.  The spec has it "convert each returned descriptor
    into a Site instance bound to this Source": the descriptor's fields go
    to [Site.__init__], with [source] the calling Source and [use_cache]
    left at its default. *)
Definition util__site_from_wml_siteInfo (site : WmlSiteInfo) (source : Source)
  : M World Site :=
  Site___init__ (wml_code site) (wml_name site) (wml_id site)
    (wml_network site) (Some (wml_latitude site)) (Some (wml_longitude site))
    (Source_ref source) true.

(** Modelled from the spec: [util._timeseries_from_wml_series(series, site)]
    is not in the file.  The spec identifies a TimeSeries by (site,
    variable, begin date, end date, method, quality-control level): the
    descriptor's fields go to [TimeSeries.__init__], with [site] the
    calling Site. *)
Definition util__timeseries_from_wml_series (series : WmlSeries) (site : Site)
  : M World TimeSeries :=
  TimeSeries___init__ (wml_variable series) (wml_count series)
    (wml_method series) (wml_quality_control_level series)
    (wml_begin_datetime series) (wml_end_datetime series) (Site_ref site).

(** ** Methods and properties *)

Context (env : Env).

(** *** TimeSeries *)

(** [TimeSeries._update_series].  The TimeSeries has the site, the
    variable and the dates its constructor was given, and the exchange
    answers: a TimeSeries left at the [None] defaults (an
    [AttributeError] at [self.site.source]) and a call that fails (the
    exception leaves before anything is assigned) are outside the
    model. *)
Definition TimeSeries__update_series : M (TimeSeries * World) unit :=
  self ← get_self;
  let suds_client := ref_suds_client (ref_source (TimeSeries_site self)) in
  let site_arg :=
    ref_network (TimeSeries_site self) ++ ":" ++ ref_code (TimeSeries_site self) in
  let variable_arg :=
    Variable_vocabulary (TimeSeries_variable self) ++ ":"
      ++ Variable_code (TimeSeries_variable self) in
  let begin_arg := strftime env (TimeSeries_begin_datetime self) "%Y-%m-%d" in
  let end_arg := strftime env (TimeSeries_end_datetime self) "%Y-%m-%d" in
  call (GetValuesObject suds_client site_arg variable_arg begin_arg end_arg);;
  let timeseries_resp :=
    service_GetValuesObject env suds_client site_arg variable_arg
      begin_arg end_arg in
  let pair := util__pandas_series_from_wml_TimeSeriesResponseType env
                timeseries_resp in
  assign A_series (TimeSeries_set__series pair.1);;
  assign A_quantity (TimeSeries_set__quantity (Some pair.2)).

(** [TimeSeries.series] *)
Definition TimeSeries_series : M (TimeSeries * World) Series :=
  self ← get_self;
  (if bool_decide (length (TimeSeries__series self) = 0)
   then TimeSeries__update_series else mret tt);;
  self ← get_self;
  mret (TimeSeries__series self).

(** Truth value of [self._quantity]. *)
Definition truth_quantity (q : option Quantity) : bool :=
  match q with
  | None => false
  | Some q => Quantity_bool env q
  end.

(** [TimeSeries.quantity] *)
Definition TimeSeries_quantity : M (TimeSeries * World) (option Quantity) :=
  self ← get_self;
  (if negb (truth_quantity (TimeSeries__quantity self))
   then TimeSeries__update_series else mret tt);;
  self ← get_self;
  mret (TimeSeries__quantity self).

(** The states of a TimeSeries: as constructed, then after any number of
    accesses to [series] and [quantity]. *)
Inductive TimeSeries_reachable : TimeSeries → Prop :=
| reachable_init variable count method quality_control_level
    begin_datetime end_datetime site w t w' :
    TimeSeries___init__ variable count method quality_control_level
      begin_datetime end_datetime site w = (Return t, w') →
    TimeSeries_reachable t
| reachable_series t w r t' w' :
    TimeSeries_reachable t →
    TimeSeries_series (t, w) = (r, (t', w')) →
    TimeSeries_reachable t'
| reachable_quantity t w r t' w' :
    TimeSeries_reachable t →
    TimeSeries_quantity (t, w) = (r, (t', w')) →
    TimeSeries_reachable t'.

(** *** Site *)

(** [Site.latitude], [Site.longitude] *)
Definition Site_latitude (self : Site) : Float := Point_y (Site_location self).
Definition Site_longitude (self : Site) : Float := Point_x (Site_location self).

(** Reading an attribute of [self._site_info]; on [None] the attribute
    access fails. *)
Definition the_site_info (o : option SiteInfoResponse)
  : M (Site * World) SiteInfoResponse :=
  match o with
  | Some info => mret info
  | None => raise AttributeError
  end.

(** [Site._update_site_info]: the payload is stored first and checked
    afterwards.  In [A or B], [B] is evaluated only when [A] is false. *)
Definition Site__update_site_info : M (Site * World) unit :=
  self ← get_self;
  let suds_client := ref_suds_client (Site_source self) in
  let arg := Site_network self ++ ":" ++ Site_code self in
  call (GetSiteInfoObject suds_client arg);;
  assign A_site_info
    (Site_set__site_info (Some (service_GetSiteInfoObject env suds_client arg)));;
  self ← get_self;
  info ← the_site_info (Site__site_info self);
  too_many ←
    (if bool_decide (1 < length (SiteInfoResponse_site info)) then mret true
     else
       self ← get_self;
       info ← the_site_info (Site__site_info self);
       site0 ← getitem (SiteInfoResponse_site info) 0;
       mret (bool_decide (1 < length (seriesCatalog site0))));
  if too_many : bool then raise NotImplementedError else mret tt.

(** Truth value of [self._site_info]: [None] is false; a suds object is
    true as soon as it has an attribute, and the module reads [.site] off
    every payload. *)
Definition truth_site_info (o : option SiteInfoResponse) : bool :=
  match o with
  | None => false
  | Some _ => true
  end.

(** [Site.site_info] *)
Definition Site_site_info : M (Site * World) (option SiteInfoResponse) :=
  self ← get_self;
  (if negb (truth_site_info (Site__site_info self))
   then Site__update_site_info else mret tt);;
  self ← get_self;
  mret (Site__site_info self).

(** [self._use_cache and cache] *)
Definition cache_enabled (use_cache : bool) : option CacheModule :=
  if use_cache then cache env else None.

(** [Site._update_timeseries_list] *)
Definition Site__update_timeseries_list : M (Site * World) unit :=
  self ← get_self;
  let cache_enabled := cache_enabled (Site__use_cache self) in
  returned ←
    match cache_enabled with
    | Some cache =>
        call (cache__get_cached_timeseries_list (Site_ref self));;
        store ← get_cache_state;
        let cached_timeseries_list :=
          _get_cached_timeseries_list cache self store in
        if bool_decide (length cached_timeseries_list ≠ 0) then
          assign A_timeseries_list
            (Site_set__timeseries_list cached_timeseries_list);;
          mret true
        else mret false
    | None => mret false
    end;
  if returned : bool then mret tt else
  site_info ← Site_site_info;
  info ← the_site_info site_info;
  site0 ← getitem (SiteInfoResponse_site info) 0;
  catalog0 ← getitem (seriesCatalog site0) 0;
  let series_list := series catalog0 in
  self ← get_self;
  timeseries_list ←
    lift (comprehension (λ series, util__timeseries_from_wml_series series self)
            series_list);
  assign A_timeseries_list (Site_set__timeseries_list timeseries_list);;
  match cache_enabled with
  | Some cache =>
      self ← get_self;
      call (cache__update_cache_timeseries self);;
      set_cache_state (_update_cache_timeseries cache self)
  | None => mret tt
  end.

(** [Site.timeseries_list] *)
Definition Site_timeseries_list : M (Site * World) (list TimeSeries) :=
  self ← get_self;
  (if bool_decide (length (Site__timeseries_list self) = 0)
   then Site__update_timeseries_list else mret tt);;
  self ← get_self;
  mret (Site__timeseries_list self).

(** A method of the [i]-th element of [self._timeseries_list]: the list
    holds the object itself, so what the method does to it is seen through
    the list. *)
Definition on_timeseries {A} (i : nat) (m : M (TimeSeries * World) A)
  : M (Site * World) A :=
  λ st,
    match Site__timeseries_list st.1 !! i with
    | None => (Raise IndexError, st)
    | Some ts =>
        let '(r, (ts', w')) := m (ts, st.2) in
        (r, (Site_set__timeseries_list
               (<[i := ts']> (Site__timeseries_list st.1)) st.1, w'))
    end.

(** [Site.variables] *)
Definition Site_variables : M (Site * World) (list PyVariable) :=
  timeseries_list ← Site_timeseries_list;
  mret (TimeSeries_variable <$> timeseries_list).

(** One step of the generator in [_update_dataframe]:
    [(ts.variable.code, ts.series)]. *)
Definition column : M (TimeSeries * World) (string * Series) :=
  ts ← get_self;
  values ← TimeSeries_series;
  mret (Variable_code (TimeSeries_variable ts), values).

(** [Site._update_dataframe] *)
Definition Site__update_dataframe : M (Site * World) unit :=
  timeseries_list ← Site_timeseries_list;
  pairs ← comprehension (λ i, on_timeseries i column)
            (seq 0 (length timeseries_list));
  assign A_dataframe
    (Site_set__dataframe (Some {| DataFrame_data := dict pairs |})).

(** Truth value of [self._dataframe]: [None] is false; for a DataFrame
    pandas decides ([DataFrame_bool]), and may raise. *)
Definition truth_dataframe (o : option DataFrame) : M (Site * World) bool :=
  match o with
  | None => mret false
  | Some df => of_result (DataFrame_bool env df)
  end.

(** [Site.dataframe] *)
Definition Site_dataframe : M (Site * World) (option DataFrame) :=
  self ← get_self;
  (if bool_decide (length (Site__timeseries_list self) = 0)
   then Site__update_site_info else mret tt);;
  self ← get_self;
  truth ← truth_dataframe (Site__dataframe self);
  (if negb truth then Site__update_dataframe else mret tt);;
  self ← get_self;
  mret (Site__dataframe self).

(** *** Source *)

(** [Source._update_sites] *)
Definition Source__update_sites : M (Source * World) unit :=
  self ← get_self;
  let cache_enabled := cache_enabled (Source__use_cache self) in
  returned ←
    match cache_enabled with
    | Some cache =>
        call (cache__get_cached_sites (Source_ref self));;
        store ← get_cache_state;
        let cached_sites := _get_cached_sites cache self store in
        if bool_decide (size cached_sites ≠ 0) then
          assign A_sites (Source_set__sites cached_sites);;
          mret true
        else mret false
    | None => mret false
    end;
  if returned : bool then mret tt else
  self ← get_self;
  call (GetSites (Source_suds_client self) "");;
  let get_all_sites_query :=
    service_GetSites env (Source_suds_client self) "" in
  site_list ←
    lift (comprehension (λ site, util__site_from_wml_siteInfo site self)
            (SitesResponse_site get_all_sites_query));
  assign A_sites
    (Source_set__sites (dict ((λ site, (Site_code site, site)) <$> site_list)));;
  match cache_enabled with
  | Some cache =>
      self ← get_self;
      call (cache__update_cache_sites site_list (Source_ref self));;
      set_cache_state (_update_cache_sites cache site_list self)
  | None => mret tt
  end.

(** [Source.sites] *)
Definition Source_sites : M (Source * World) (gmap string Site) :=
  self ← get_self;
  (if bool_decide (size (Source__sites self) = 0)
   then Source__update_sites else mret tt);;
  self ← get_self;
  mret (Source__sites self).

(** [Source.__len__]: [len(self._sites)] is evaluated and dropped; the
    method has no [return], so it yields [None]. *)
Definition Source___len__ : M (Source * World) (option Z) :=
  self ← get_self;
  let _ := Z.of_nat (size (Source__sites self)) in
  mret None.

(** The built-in [len(obj)]: it calls [obj.__len__()] and insists on an
    integer that is not negative. *)
Definition builtin_len {S} (dunder_len : M S (option Z)) : M S Z :=
  n ← dunder_len;
  match n with
  | None => raise TypeError
  | Some n => if bool_decide (n < 0)%Z then raise ValueError else mret n
  end.

(** ** Lazy attributes, uniformly *)

(** The six lazy attributes of the module and the objects that carry
    them.  [getattr] is attribute access on an object: an attribute of
    another class is an [AttributeError]. *)
Inductive Entity : Type :=
| ESource (s : Source)
| ESite (s : Site)
| ETimeSeries (t : TimeSeries).

Inductive Accessor : Type :=
| acc_sites
| acc_site_info
| acc_timeseries_list
| acc_dataframe
| acc_series
| acc_quantity.

Inductive Value : Type :=
| VSites (m : gmap string Site)
| VSiteInfo (o : option SiteInfoResponse)
| VTimeseriesList (l : list TimeSeries)
| VDataframe (o : option DataFrame)
| VSeries (s : Series)
| VQuantity (q : option Quantity).

Definition on_source {A} (wrap : A → Value) (m : M (Source * World) A)
  : M (Entity * World) Value :=
  λ st,
    match st.1 with
    | ESource s =>
        let '(r, (s', w')) := m (s, st.2) in
        (match r with Return a => Return (wrap a) | Raise e => Raise e end,
         (ESource s', w'))
    | _ => (Raise AttributeError, st)
    end.

Definition on_site {A} (wrap : A → Value) (m : M (Site * World) A)
  : M (Entity * World) Value :=
  λ st,
    match st.1 with
    | ESite s =>
        let '(r, (s', w')) := m (s, st.2) in
        (match r with Return a => Return (wrap a) | Raise e => Raise e end,
         (ESite s', w'))
    | _ => (Raise AttributeError, st)
    end.

Definition on_series {A} (wrap : A → Value) (m : M (TimeSeries * World) A)
  : M (Entity * World) Value :=
  λ st,
    match st.1 with
    | ETimeSeries t =>
        let '(r, (t', w')) := m (t, st.2) in
        (match r with Return a => Return (wrap a) | Raise e => Raise e end,
         (ETimeSeries t', w'))
    | _ => (Raise AttributeError, st)
    end.

Definition getattr (a : Accessor) : M (Entity * World) Value :=
  match a with
  | acc_sites => on_source VSites Source_sites
  | acc_site_info => on_site VSiteInfo Site_site_info
  | acc_timeseries_list => on_site VTimeseriesList Site_timeseries_list
  | acc_dataframe => on_site VDataframe Site_dataframe
  | acc_series => on_series VSeries TimeSeries_series
  | acc_quantity => on_series VQuantity TimeSeries_quantity
  end.

(** The attribute behind each accessor. *)
Definition backing (a : Accessor) : Attr :=
  match a with
  | acc_sites => A_sites
  | acc_site_info => A_site_info
  | acc_timeseries_list => A_timeseries_list
  | acc_dataframe => A_dataframe
  | acc_series => A_series
  | acc_quantity => A_quantity
  end.

(** The test each accessor makes before it populates: [populated] is
    true when the accessor finds its backing value and returns it as it
    is. *)
Definition populated (a : Accessor) (e : Entity) : bool :=
  match a, e with
  | acc_sites, ESource s => negb (bool_decide (size (Source__sites s) = 0))
  | acc_site_info, ESite s => truth_site_info (Site__site_info s)
  | acc_timeseries_list, ESite s =>
      negb (bool_decide (length (Site__timeseries_list s) = 0))
  | acc_dataframe, ESite s =>
      negb (bool_decide (length (Site__timeseries_list s) = 0))
      && match Site__dataframe s with
         | Some df =>
             match DataFrame_bool env df with
             | Return b => b
             | Raise _ => false
             end
         | None => false
         end
  | acc_series, ETimeSeries t =>
      negb (bool_decide (length (TimeSeries__series t) = 0))
  | acc_quantity, ETimeSeries t => truth_quantity (TimeSeries__quantity t)
  | _, _ => false
  end.

(** Nothing fetched yet for this accessor: its own backing value is
    unpopulated, and so is the site-detail payload [timeseries_list]
    builds on. *)
Definition unpopulated (a : Accessor) (e : Entity) : bool :=
  match a, e with
  | acc_timeseries_list, ESite s =>
      negb (populated acc_timeseries_list e)
      && negb (populated acc_site_info e)
  | _, _ => negb (populated a e)
  end.

(** No cache for this object: [self._use_cache and cache] is false.  A
    TimeSeries never looks at the cache. *)
Definition cache_off (e : Entity) : bool :=
  match e with
  | ESource s =>
      match cache_enabled (Source__use_cache s) with None => true | _ => false end
  | ESite s =>
      match cache_enabled (Site__use_cache s) with None => true | _ => false end
  | ETimeSeries _ => true
  end.

(** The cache, if this object looks at it, has nothing stored for it. *)
Definition cache_miss (e : Entity) (w : World) : bool :=
  match e with
  | ESource s =>
      match cache_enabled (Source__use_cache s) with
      | None => true
      | Some c => bool_decide (size (_get_cached_sites c s (cache_state w)) = 0)
      end
  | ESite s =>
      match cache_enabled (Site__use_cache s) with
      | None => true
      | Some c =>
          bool_decide
            (length (_get_cached_timeseries_list c s (cache_state w)) = 0)
      end
  | ETimeSeries _ => true
  end.

(** ** Four properties as the specification words them *)

(** Two accesses in a row return the same value and make exactly one
    remote call between them. *)
Definition two_accesses_one_call (a : Accessor) (e : Entity) (w : World) : Prop :=
  ∀ v1 e1 w1 v2 e2 w2,
    getattr a (e, w) = (Return v1, (e1, w1)) →
    getattr a (e1, w1) = (Return v2, (e2, w2)) →
    v2 = v1 ∧ count is_remote (trace w2) = count is_remote (trace w) + 1.

(** After a successful access to [series], both fields of the pair are
    populated. *)
Definition pair_populated_after_access (t : TimeSeries) (w : World) : Prop :=
  ∀ v t1 w1,
    TimeSeries_series (t, w) = (Return v, (t1, w1)) →
    populated acc_series (ETimeSeries t1) = true
    ∧ populated acc_quantity (ETimeSeries t1) = true.

(** Constructing a Source leaves the world as it was. *)
Definition Source_construction_is_silent (wsdl_url : string) (use_cache : bool)
    (w : World) : Prop :=
  ∀ r w', Source___init__ wsdl_url use_cache w = (r, w') → w' = w.

(** An access makes a remote call. *)
Definition access_calls_remote (a : Accessor) (e : Entity) (w : World) : Prop :=
  ∀ r e' w',
    getattr a (e, w) = (r, (e', w')) →
    count is_remote (trace w) < count is_remote (trace w').

(** ** What one get-values exchange yields for a TimeSeries *)

Definition TimeSeries_request (t : TimeSeries) : Call :=
  GetValuesObject (ref_suds_client (ref_source (TimeSeries_site t)))
    (ref_network (TimeSeries_site t) ++ ":" ++ ref_code (TimeSeries_site t))
    (Variable_vocabulary (TimeSeries_variable t) ++ ":"
       ++ Variable_code (TimeSeries_variable t))
    (strftime env (TimeSeries_begin_datetime t) "%Y-%m-%d")
    (strftime env (TimeSeries_end_datetime t) "%Y-%m-%d").

Definition TimeSeries_response (t : TimeSeries) : Series * Quantity :=
  util__pandas_series_from_wml_TimeSeriesResponseType env
    (service_GetValuesObject env
       (ref_suds_client (ref_source (TimeSeries_site t)))
       (ref_network (TimeSeries_site t) ++ ":" ++ ref_code (TimeSeries_site t))
       (Variable_vocabulary (TimeSeries_variable t) ++ ":"
          ++ Variable_code (TimeSeries_variable t))
       (strftime env (TimeSeries_begin_datetime t) "%Y-%m-%d")
       (strftime env (TimeSeries_end_datetime t) "%Y-%m-%d")).

(** The TimeSeries once that exchange has been stored in it. *)
Definition TimeSeries_fetched (t : TimeSeries) : TimeSeries :=
  TimeSeries_set__quantity (Some (TimeSeries_response t).2)
    (TimeSeries_set__series (TimeSeries_response t).1 t).

(** Both backing fields at their class defaults. *)
Definition TimeSeries_unset (t : TimeSeries) : Prop :=
  TimeSeries__series t = [] ∧ TimeSeries__quantity t = None.

(** Both backing fields hold the two halves of the one exchange. *)
Definition TimeSeries_paired (t : TimeSeries) : Prop :=
  TimeSeries__series t = (TimeSeries_response t).1
  ∧ TimeSeries__quantity t = Some (TimeSeries_response t).2.

(** ** What one get-site-detail exchange yields for a Site *)

Definition Site_request (s : Site) : Call :=
  GetSiteInfoObject (ref_suds_client (Site_source s))
    (Site_network s ++ ":" ++ Site_code s).

Definition Site_response (s : Site) : SiteInfoResponse :=
  service_GetSiteInfoObject env (ref_suds_client (Site_source s))
    (Site_network s ++ ":" ++ Site_code s).

(** The outcome of the test in [_update_site_info] on a payload. *)
Definition shape_check (info : SiteInfoResponse) : result unit :=
  if bool_decide (1 < length (SiteInfoResponse_site info))
  then Raise NotImplementedError
  else match SiteInfoResponse_site info !! 0 with
       | None => Raise IndexError
       | Some site0 =>
           if bool_decide (1 < length (seriesCatalog site0))
           then Raise NotImplementedError else Return tt
       end.

(** The payload shape the module refuses: more than one site entry, or
    one site entry with more than one series catalog. *)
Definition multiple (info : SiteInfoResponse) : Prop :=
  1 < length (SiteInfoResponse_site info)
  ∨ ∃ site0, SiteInfoResponse_site info = [site0]
             ∧ 1 < length (seriesCatalog site0).

(** The payload shape the module is written for: one site entry with one
    series catalog, holding [series_list]. *)
Definition single (info : SiteInfoResponse) (series_list : list WmlSeries) : Prop :=
  SiteInfoResponse_site info
  = [ {| seriesCatalog := [ {| series := series_list |} ] |} ].

(** The TimeSeries objects [_update_timeseries_list] builds for a Site. *)
Definition Site_catalog (s : Site) (series_list : list WmlSeries)
  : list TimeSeries :=
  (λ d, {| TimeSeries_variable := wml_variable d;
           TimeSeries_count := wml_count d;
           TimeSeries_method := wml_method d;
           TimeSeries_quality_control_level := wml_quality_control_level d;
           TimeSeries_begin_datetime := wml_begin_datetime d;
           TimeSeries_end_datetime := wml_end_datetime d;
           TimeSeries_site := Site_ref s;
           TimeSeries__series := [];
           TimeSeries__quantity := None |}) <$> series_list.

(** [info.site[0].seriesCatalog[0].series], when both indices exist. *)
Definition catalog_series (info : SiteInfoResponse) : option (list WmlSeries) :=
  site0 ← SiteInfoResponse_site info !! 0;
  catalog0 ← seriesCatalog site0 !! 0;
  Some (series catalog0).

(** The cache calls around a fetch, for a Site and for a Source: the
    lookup before it, the write after it. *)
Definition Site_lookup (s : Site) : list Event :=
  match cache_enabled (Site__use_cache s) with
  | Some _ => [Called (cache__get_cached_timeseries_list (Site_ref s))]
  | None => []
  end.

Definition Site_write (s : Site) (w : World) : World :=
  match cache_enabled (Site__use_cache s) with
  | Some c =>
      store (_update_cache_timeseries c s)
        (extend w [Called (cache__update_cache_timeseries s)])
  | None => w
  end.

Definition Source_lookup (s : Source) : list Event :=
  match cache_enabled (Source__use_cache s) with
  | Some _ => [Called (cache__get_cached_sites (Source_ref s))]
  | None => []
  end.

Definition Source_write (site_list : list Site) (s : Source) (w : World) : World :=
  match cache_enabled (Source__use_cache s) with
  | Some c =>
      store (_update_cache_sites c site_list s)
        (extend w [Called (cache__update_cache_sites site_list (Source_ref s))])
  | None => w
  end.

(** The Site objects [_update_sites] builds for a Source. *)
Definition Source_site_list (s : Source) : list Site :=
  (λ d, {| Site_code := wml_code d; Site_name := wml_name d;
           Site_id := wml_id d; Site_network := wml_network d;
           Site_location :=
             {| Point_x := wml_longitude d; Point_y := wml_latitude d |};
           Site_source := Source_ref s;
           Site__use_cache := true;
           Site__site_info := None;
           Site__timeseries_list := [];
           Site__dataframe := None |})
  <$> SitesResponse_site (service_GetSites env (Source_suds_client s) "").

(** The mapping [_update_sites] builds from them. *)
Definition Source_fetched_sites (s : Source) : gmap string Site :=
  dict ((λ site, (Site_code site, site)) <$> Source_site_list s).

(** The events of one get-values exchange. *)
Definition fetch_events (t : TimeSeries) : list Event :=
  [Called (TimeSeries_request t); Assigned A_series; Assigned A_quantity].

(** ** Vocabulary for what the methods keep and never do *)

(** The entry points of the cache module. *)
Definition is_cache_call (e : Event) : bool :=
  match e with
  | Called (cache__get_cached_sites _)
  | Called (cache__update_cache_sites _ _)
  | Called (cache__get_cached_timeseries_list _)
  | Called (cache__update_cache_timeseries _) => true
  | _ => false
  end.

(** What [__init__] assigns, for each class. *)
Definition Source_identity (s : Source) : string * Client * bool :=
  (Source_url s, Source_suds_client s, Source__use_cache s).

Definition Site_identity (s : Site)
  : string * string * Z * string * Point * SourceRef * bool :=
  (Site_code s, Site_name s, Site_id s, Site_network s, Site_location s,
   Site_source s, Site__use_cache s).

Definition TimeSeries_identity (t : TimeSeries)
  : PyVariable * Z * string * string * Datetime * Datetime * SiteRef :=
  (TimeSeries_variable t, TimeSeries_count t, TimeSeries_method t,
   TimeSeries_quality_control_level t, TimeSeries_begin_datetime t,
   TimeSeries_end_datetime t, TimeSeries_site t).

Definition same_identity (e e' : Entity) : Prop :=
  match e, e' with
  | ESource a, ESource b => Source_identity a = Source_identity b
  | ESite a, ESite b => Site_identity a = Site_identity b
  | ETimeSeries a, ETimeSeries b => TimeSeries_identity a = TimeSeries_identity b
  | _, _ => False
  end.

(** A TimeSeries after an access to [series]: fetched if its series was
    empty, as it was otherwise; and the events of that access. *)
Definition TimeSeries_settled (t : TimeSeries) : TimeSeries :=
  if bool_decide (length (TimeSeries__series t) = 0)
  then TimeSeries_fetched t else t.

Definition settle_events (t : TimeSeries) : list Event :=
  if bool_decide (length (TimeSeries__series t) = 0)
  then fetch_events t else [].

(** The columns [_update_dataframe] collects from a list of TimeSeries. *)
Definition columns_of (l : list TimeSeries) : list (string * Series) :=
  (λ t, (Variable_code (TimeSeries_variable t),
         TimeSeries__series (TimeSeries_settled t))) <$> l.

(** One step of a Site and the world: the Site keeps its identity, the
    trace grows by [evs], and when no cache is in play for the Site the
    cache store is left alone and no cache entry point is called. *)
Definition Site_step (st st' : Site * World) : Prop :=
  Site_identity st'.1 = Site_identity st.1
  ∧ ∃ evs, trace st'.2 = (trace st.2 ++ evs)%list
           ∧ (cache_enabled (Site__use_cache st.1) = None →
              cache_state st'.2 = cache_state st.2
              ∧ count is_cache_call evs = 0).

End Model.

(** ** A concrete service, for running the model *)

Module Demo.

Definition Float : Type := Z.
Definition Datetime : Type := Z.
Definition Quantity : Type := string.
Definition TimeSeriesResponse : Type := (list (Z * Z) * string)%type.
Definition CacheState : Type := gmap string (@Site Float Datetime Quantity).

Definition url : string := "http://example.org/wml".

Definition units : Units :=
  {| Units_name := "cubic feet per second"; Units_abbreviation := "cfs";
     Units_code := "35" |}.

Definition discharge : @PyVariable Float :=
  {| Variable_name := "Discharge"; Variable_code := "00060";
     Variable_id := 1%Z; Variable_vocabulary := "NWISDV";
     Variable_units := units; Variable_no_data_value := (-999999)%Z |}.

Definition gage_height : @PyVariable Float :=
  {| Variable_name := "Gage height"; Variable_code := "00065";
     Variable_id := 2%Z; Variable_vocabulary := "NWISDV";
     Variable_units := units; Variable_no_data_value := (-999999)%Z |}.

Definition wml_discharge : @WmlSeries Float Datetime :=
  {| wml_variable := discharge; wml_count := 2%Z; wml_method := "";
     wml_quality_control_level := "0";
     wml_begin_datetime := 0%Z; wml_end_datetime := 1%Z |}.

Definition wml_gage_height : @WmlSeries Float Datetime :=
  {| wml_variable := gage_height; wml_count := 0%Z; wml_method := "";
     wml_quality_control_level := "0";
     wml_begin_datetime := 0%Z; wml_end_datetime := 1%Z |}.

Definition entry (series_list : list (@WmlSeries Float Datetime))
  : @SiteEntry Float Datetime :=
  {| seriesCatalog := [ {| series := series_list |} ] |}.

(** The answers of the remote service: site "01234" has two series,
    "two-sites" and "two-catalogs" have the shapes the module refuses,
    any other site has an empty catalog; the discharge series has two
    values, any other series has none. *)
Definition GetSiteInfoObject_answer (c : Client) (arg : string)
  : @SiteInfoResponse Float Datetime :=
  if String.eqb arg "NWISDV:01234" then
    {| SiteInfoResponse_site := [entry [wml_discharge; wml_gage_height]] |}
  else if String.eqb arg "NWISDV:two-sites" then
    {| SiteInfoResponse_site := [entry [wml_discharge]; entry []] |}
  else if String.eqb arg "NWISDV:two-catalogs" then
    {| SiteInfoResponse_site :=
         [ {| seriesCatalog := [ {| series := [wml_discharge] |};
                                 {| series := [] |} ] |} ] |}
  else {| SiteInfoResponse_site := [entry []] |}.

Definition GetSites_answer (c : Client) (arg : string) : @SitesResponse Float :=
  if String.eqb (Client_url c) url then
    {| SitesResponse_site :=
         [ {| wml_code := "01234"; wml_name := "Example River";
              wml_id := 7%Z; wml_network := "NWISDV";
              wml_latitude := 30%Z; wml_longitude := (-97)%Z |} ] |}
  else {| SitesResponse_site := [] |}.

Definition GetValuesObject_answer (c : Client)
    (site variable begin_date end_date : string) : TimeSeriesResponse :=
  if String.eqb variable "NWISDV:00060"
  then ([(0%Z, 10%Z); (1%Z, 20%Z)], "cfs")
  else ([], "ft").

(** A cache store holding one site mapping, whatever the Source. *)
Definition the_cache : @CacheModule Float Datetime Quantity CacheState :=
  {| _get_cached_sites := λ _ st, st;
     _update_cache_sites := λ site_list _ _,
       dict ((λ site, (Site_code site, site)) <$> site_list);
     _get_cached_timeseries_list := λ _ _, [];
     _update_cache_timeseries := λ _ st, st |}.

Definition env_with (cache : option CacheModule)
  : @Env Float Datetime Quantity TimeSeriesResponse CacheState :=
  {| service_GetSites := GetSites_answer;
     service_GetSiteInfoObject := GetSiteInfoObject_answer;
     service_GetValuesObject := GetValuesObject_answer;
     strftime := λ d _, if (d =? 0)%Z then "2011-01-01" else "2011-12-31";
     util__pandas_series_from_wml_TimeSeriesResponseType := λ resp, resp;
     Quantity_bool := λ q, negb (String.eqb q "");
     DataFrame_bool := λ df, Return (negb (Nat.eqb (size (DataFrame_data df)) 0));
     cache := cache |}.

(** The module imported without, and with, a cache. *)
Definition env : Env := env_with None.
Definition env_cached : Env := env_with (Some the_cache).

Definition world : @World Float Datetime Quantity CacheState :=
  {| trace := []; cache_state := ∅ |}.

Definition source (use_cache : bool) : @Source Float Datetime Quantity :=
  {| Source_url := url; Source_suds_client := {| Client_url := url |};
     Source__sites := ∅; Source__use_cache := use_cache |}.

Definition site (code : string) : @Site Float Datetime Quantity :=
  {| Site_code := code; Site_name := "Example River"; Site_id := 7%Z;
     Site_network := "NWISDV";
     Site_location := {| Point_x := (-97)%Z; Point_y := 30%Z |};
     Site_source := Source_ref (source false);
     Site__use_cache := false;
     Site__site_info := None;
     Site__timeseries_list := [];
     Site__dataframe := None |}.

Definition timeseries (variable : PyVariable)
  : @TimeSeries Float Datetime Quantity :=
  {| TimeSeries_variable := variable; TimeSeries_count := 0%Z;
     TimeSeries_method := ""; TimeSeries_quality_control_level := "0";
     TimeSeries_begin_datetime := 0%Z; TimeSeries_end_datetime := 1%Z;
     TimeSeries_site := Site_ref (site "01234");
     TimeSeries__series := [];
     TimeSeries__quantity := None |}.

(** A world whose cache store already holds a site mapping. *)
Definition cached_sites : gmap string (@Site Float Datetime Quantity) :=
  {[ "01234" := site "01234" ]}.

Definition world_cached : @World Float Datetime Quantity CacheState :=
  {| trace := []; cache_state := cached_sites |}.

(** Edge cases of the service: site "no-sites" answers with no site
    entry, "no-catalogs" with one entry and no series catalog, "same-code"
    with two series of the same variable code; the gage-height series has
    one value and a quantity that is false; a series that begins late has
    a value of its own.  The truth test of a data frame raises, and the
    cache holds one TimeSeries for the site "01234". *)
Definition wml_discharge_late : @WmlSeries Float Datetime :=
  {| wml_variable := discharge; wml_count := 1%Z; wml_method := "";
     wml_quality_control_level := "0";
     wml_begin_datetime := 1%Z; wml_end_datetime := 1%Z |}.

Definition GetSiteInfoObject_edge (c : Client) (arg : string)
  : @SiteInfoResponse Float Datetime :=
  if String.eqb arg "NWISDV:no-sites" then
    {| SiteInfoResponse_site := [] |}
  else if String.eqb arg "NWISDV:no-catalogs" then
    {| SiteInfoResponse_site := [ {| seriesCatalog := [] |} ] |}
  else if String.eqb arg "NWISDV:same-code" then
    {| SiteInfoResponse_site := [entry [wml_discharge; wml_discharge_late]] |}
  else GetSiteInfoObject_answer c arg.

Definition GetValuesObject_edge (c : Client)
    (site variable begin_date end_date : string) : TimeSeriesResponse :=
  if String.eqb variable "NWISDV:00065" then ([(0%Z, 3%Z)], "")
  else if String.eqb begin_date "2011-12-31" then ([(1%Z, 50%Z)], "cfs")
  else GetValuesObject_answer c site variable begin_date end_date.

Definition cache_of_series : @CacheModule Float Datetime Quantity CacheState :=
  {| _get_cached_sites := λ _ st, st;
     _update_cache_sites := λ site_list _ _,
       dict ((λ site, (Site_code site, site)) <$> site_list);
     _get_cached_timeseries_list := λ s _,
       if String.eqb (Site_code s) "01234" then [timeseries discharge] else [];
     _update_cache_timeseries := λ _ st, st |}.

Definition env_edge
  : @Env Float Datetime Quantity TimeSeriesResponse CacheState :=
  {| service_GetSites := GetSites_answer;
     service_GetSiteInfoObject := GetSiteInfoObject_edge;
     service_GetValuesObject := GetValuesObject_edge;
     strftime := λ d _, if (d =? 0)%Z then "2011-01-01" else "2011-12-31";
     util__pandas_series_from_wml_TimeSeriesResponseType := λ resp, resp;
     Quantity_bool := λ q, negb (String.eqb q "");
     DataFrame_bool := λ _, Raise ValueError;
     cache := Some cache_of_series |}.

(** A Site that looks into the cache. *)
Definition site_cached (code : string) : @Site Float Datetime Quantity :=
  {| Site_code := code; Site_name := "Example River"; Site_id := 7%Z;
     Site_network := "NWISDV";
     Site_location := {| Point_x := (-97)%Z; Point_y := 30%Z |};
     Site_source := Source_ref (source true);
     Site__use_cache := true;
     Site__site_info := None;
     Site__timeseries_list := [];
     Site__dataframe := None |}.

End Demo.

(** * Verification *)

Local Open Scope list_scope.

(** Running a computation: the monad's operations unfold, the attribute
    stores and the projections of the world compute. *)
Tactic Notation "run" "in" hyp(H) :=
  cbv beta iota zeta delta
    [mbind M_bind mret M_ret get_self set_self call assign lift emit
     get_cache_state set_cache_state of_result raise getitem the_site_info] in H;
  cbn [fst snd
       Site_code Site_name Site_id Site_network Site_location Site_source
       Site__use_cache Site__site_info Site__timeseries_list Site__dataframe
       Site_set__site_info Site_set__timeseries_list Site_set__dataframe
       Source_url Source_suds_client Source__sites Source__use_cache
       Source_set__sites
       TimeSeries_variable TimeSeries_count TimeSeries_method
       TimeSeries_quality_control_level TimeSeries_begin_datetime
       TimeSeries_end_datetime TimeSeries_site TimeSeries__series
       TimeSeries__quantity TimeSeries_set__series TimeSeries_set__quantity
       trace cache_state extend store] in H.

Tactic Notation "run" :=
  cbv beta iota zeta delta
    [mbind M_bind mret M_ret get_self set_self call assign lift emit
     get_cache_state set_cache_state of_result raise getitem the_site_info];
  cbn [fst snd
       Site_code Site_name Site_id Site_network Site_location Site_source
       Site__use_cache Site__site_info Site__timeseries_list Site__dataframe
       Site_set__site_info Site_set__timeseries_list Site_set__dataframe
       Source_url Source_suds_client Source__sites Source__use_cache
       Source_set__sites
       TimeSeries_variable TimeSeries_count TimeSeries_method
       TimeSeries_quality_control_level TimeSeries_begin_datetime
       TimeSeries_end_datetime TimeSeries_site TimeSeries__series
       TimeSeries__quantity TimeSeries_set__series TimeSeries_set__quantity
       trace cache_state extend store].

(** ** Worlds and traces *)

Section Worlds.
Context {Float Datetime Quantity CacheState : Type}.
Implicit Types (w : @World Float Datetime Quantity CacheState).
Implicit Types (evs : list (@Event Float Datetime Quantity)).

Lemma extend_nil w : extend w [] = w.
Proof. destruct w. unfold extend. cbn. by rewrite app_nil_r. Qed.

Lemma extend_extend w evs1 evs2 :
  extend (extend w evs1) evs2 = extend w (evs1 ++ evs2).
Proof. unfold extend. cbn. by rewrite app_assoc. Qed.

Lemma extend_store f w evs : extend (store f w) evs = store f (extend w evs).
Proof. reflexivity. Qed.

Lemma count_app p evs1 evs2 : count p (evs1 ++ evs2) = count p evs1 + count p evs2.
Proof. unfold count. by rewrite List.filter_app, length_app. Qed.

Lemma count_extend p w evs :
  count p (trace (extend w evs)) = count p (trace w) + count p evs.
Proof. apply count_app. Qed.

End Worlds.

(** ** Run equations *)

Section RunEquations.
Context {Float Datetime Quantity TimeSeriesResponse CacheState : Type}.
Context (env : @Env Float Datetime Quantity TimeSeriesResponse CacheState).
Implicit Types (t : @TimeSeries Float Datetime Quantity).
Implicit Types (s : @Site Float Datetime Quantity).
Implicit Types (src : @Source Float Datetime Quantity).
Implicit Types (w : @World Float Datetime Quantity CacheState).
Implicit Types (info : @SiteInfoResponse Float Datetime).

(** *** TimeSeries *)

Lemma TimeSeries__update_series_run t w :
  TimeSeries__update_series env (t, w)
  = (Return tt, (TimeSeries_fetched env t, extend w (fetch_events env t))).
Proof.
  unfold TimeSeries__update_series. run. by rewrite !extend_extend.
Qed.

Lemma TimeSeries_series_run t w :
  TimeSeries_series env (t, w)
  = if bool_decide (length (TimeSeries__series t) = 0)
    then (Return (TimeSeries_response env t).1,
          (TimeSeries_fetched env t, extend w (fetch_events env t)))
    else (Return (TimeSeries__series t), (t, w)).
Proof.
  unfold TimeSeries_series. run. case_bool_decide; run.
  - by rewrite TimeSeries__update_series_run.
  - done.
Qed.

Lemma TimeSeries_quantity_run t w :
  TimeSeries_quantity env (t, w)
  = if truth_quantity env (TimeSeries__quantity t)
    then (Return (TimeSeries__quantity t), (t, w))
    else (Return (Some (TimeSeries_response env t).2),
          (TimeSeries_fetched env t, extend w (fetch_events env t))).
Proof.
  unfold TimeSeries_quantity. run.
  destruct (truth_quantity env (TimeSeries__quantity t)); run.
  - done.
  - by rewrite TimeSeries__update_series_run.
Qed.

Lemma TimeSeries_fetched_paired t : TimeSeries_paired env (TimeSeries_fetched env t).
Proof. by split. Qed.

(** *** Site *)

Lemma Site__update_site_info_run s w :
  Site__update_site_info env (s, w)
  = (shape_check (Site_response env s),
     (Site_set__site_info (Some (Site_response env s)) s,
      extend w [Called (Site_request s); Assigned A_site_info])).
Proof.
  unfold Site__update_site_info, shape_check. run. rewrite !extend_extend. cbn [app].
  fold (Site_response env s). fold (Site_request s).
  case_bool_decide; run; [done|].
  destruct (SiteInfoResponse_site (Site_response env s) !! 0); run; [|done].
  by case_bool_decide.
Qed.

Lemma shape_check_multiple info : multiple info → shape_check info = Raise NotImplementedError.
Proof.
  unfold shape_check. intros [H | (site0 & H1 & H2)].
  - rewrite bool_decide_eq_true_2; [done|]. exact H.
  - rewrite H1. cbn. rewrite bool_decide_eq_false_2 by lia.
    rewrite bool_decide_eq_true_2; [done|exact H2].
Qed.

Lemma shape_check_single info l : single info l → shape_check info = Return tt.
Proof.
  unfold shape_check, single. by intros ->.
Qed.

Lemma Site_site_info_run s w :
  Site_site_info env (s, w)
  = match Site__site_info s with
    | Some info => (Return (Some info), (s, w))
    | None =>
        (match shape_check (Site_response env s) with
         | Return _ => Return (Some (Site_response env s))
         | Raise e => Raise e
         end,
         (Site_set__site_info (Some (Site_response env s)) s,
          extend w [Called (Site_request s); Assigned A_site_info]))
    end.
Proof.
  unfold Site_site_info. run. destruct (Site__site_info s) eqn:E; cbn [truth_site_info negb]; run.
  - by rewrite E.
  - rewrite Site__update_site_info_run. by destruct (shape_check _).
Qed.

Lemma comprehension_timeseries_from_wml_series s (l : list (@WmlSeries Float Datetime)) w :
  comprehension (λ series, util__timeseries_from_wml_series series s) l w
  = (Return (Site_catalog s l), w).
Proof.
  induction l as [|d l IH]; [done|].
  cbn [comprehension]. run.
  unfold util__timeseries_from_wml_series at 1, TimeSeries___init__. run.
  by rewrite IH.
Qed.

Lemma Site__update_timeseries_list_hit s w c :
  cache_enabled env (Site__use_cache s) = Some c →
  length (_get_cached_timeseries_list c s (cache_state w)) ≠ 0 →
  Site__update_timeseries_list env (s, w)
  = (Return tt,
     (Site_set__timeseries_list (_get_cached_timeseries_list c s (cache_state w)) s,
      extend w (Site_lookup env s ++ [Assigned A_timeseries_list]))).
Proof.
  intros Hc Hhit. unfold Site__update_timeseries_list, Site_lookup. run.
  rewrite Hc. run. rewrite bool_decide_eq_true_2 by done. run.
  by rewrite extend_extend.
Qed.

Lemma Site__update_timeseries_list_miss s w :
  cache_miss env (ESite s) w = true →
  Site__update_timeseries_list env (s, w)
  = let w0 := extend w (Site_lookup env s) in
    let s1 := match Site__site_info s with
              | Some _ => s
              | None => Site_set__site_info (Some (Site_response env s)) s
              end in
    let w1 := match Site__site_info s with
              | Some _ => w0
              | None => extend w0 [Called (Site_request s); Assigned A_site_info]
              end in
    let info := match Site__site_info s with
                | Some info => info
                | None => Site_response env s
                end in
    match (match Site__site_info s with
           | Some _ => Return tt
           | None => shape_check info
           end) with
    | Raise e => (Raise e, (s1, w1))
    | Return _ =>
        match catalog_series info with
        | None => (Raise IndexError, (s1, w1))
        | Some series_list =>
            let s2 := Site_set__timeseries_list (Site_catalog s series_list) s1 in
            (Return tt,
             (s2, Site_write env s2 (extend w1 [Assigned A_timeseries_list])))
        end
    end.
Proof.
  intros Hmiss. unfold Site__update_timeseries_list, Site_lookup.
  cbn [cache_miss] in Hmiss. run.
  assert (∀ (s' : Site) w', Site__use_cache s' = Site__use_cache s →
    Site_write env s' w'
    = match cache_enabled env (Site__use_cache s) with
      | Some c => store (_update_cache_timeseries c s')
                    (extend w' [Called (cache__update_cache_timeseries s')])
      | None => w'
      end) as Hwrite by (intros s' w' Hs'; unfold Site_write; by rewrite Hs').
  (* the lookup misses, or there is no cache to look into *)
  destruct (cache_enabled env (Site__use_cache s)) as [c|] eqn:Hc; run;
    [ apply bool_decide_eq_true in Hmiss;
      rewrite bool_decide_eq_false_2 by lia; run
    | rewrite extend_nil ];
    (* [self.site_info]: already there, or fetched and checked *)
    rewrite Site_site_info_run;
    (destruct (Site__site_info s) as [info|] eqn:Hi; run;
       [|destruct (shape_check (Site_response env s)); run; [|done]]);
    (* [.site[0].seriesCatalog[0].series] *)
    unfold catalog_series;
    match goal with
    | |- context [SiteInfoResponse_site ?i !! 0] =>
        destruct (SiteInfoResponse_site i !! 0) as [site0|]
    end;
    cbn [mbind option_bind]; run; [|done| |done| |done| |done];
    (destruct (seriesCatalog site0 !! 0) as [catalog0|];
       cbn [mbind option_bind]; run; [|done]);
    (* the list is built, assigned, and written to the cache *)
    rewrite comprehension_timeseries_from_wml_series; run;
    rewrite Hwrite by done; by rewrite ?extend_extend.
Qed.

Lemma Site_timeseries_list_run s w :
  Site_timeseries_list env (s, w)
  = if bool_decide (length (Site__timeseries_list s) = 0)
    then let '(r, st') := Site__update_timeseries_list env (s, w) in
         (match r with
          | Return _ => Return (Site__timeseries_list st'.1)
          | Raise e => Raise e
          end, st')
    else (Return (Site__timeseries_list s), (s, w)).
Proof.
  unfold Site_timeseries_list. run. case_bool_decide; run; [|done].
  destruct (Site__update_timeseries_list env (s, w)) as [[u|e] st']; by run.
Qed.

Lemma column_run t w :
  column env (t, w)
  = let '(r, st') := TimeSeries_series env (t, w) in
    (match r with
     | Return values => Return (Variable_code (TimeSeries_variable t), values)
     | Raise e => Raise e
     end, st').
Proof.
  unfold column. run.
  destruct (TimeSeries_series env (t, w)) as [[u|e] st']; by run.
Qed.

Lemma Site_set__timeseries_list_id s :
  Site_set__timeseries_list (Site__timeseries_list s) s = s.
Proof. by destruct s. Qed.

Lemma columns_run pre post : ∀ s w,
  Forall (λ t, TimeSeries__series t = []) post →
  Site__timeseries_list s = pre ++ post →
  comprehension (λ i, on_timeseries i (column env))
    (seq (length pre) (length post)) (s, w)
  = (Return ((λ t, (Variable_code (TimeSeries_variable t),
                    (TimeSeries_response env t).1)) <$> post),
     (Site_set__timeseries_list (pre ++ (TimeSeries_fetched env <$> post)) s,
      extend w (concat (fetch_events env <$> post)))).
Proof.
  revert pre. induction post as [|t post IH]; intros pre s w Hfresh Hs.
  - cbn. rewrite app_nil_r in *. rewrite <- Hs.
    by rewrite Site_set__timeseries_list_id, extend_nil.
  - apply Forall_cons in Hfresh as [Ht Hfresh].
    cbn [length seq comprehension]. run.
    unfold on_timeseries at 1. cbn [fst snd]. rewrite Hs.
    rewrite list_lookup_middle by done.
    rewrite column_run, TimeSeries_series_run, Ht. cbn [length].
    rewrite bool_decide_eq_true_2 by done.
    replace (<[length pre:=TimeSeries_fetched env t]> (pre ++ t :: post))
      with ((pre ++ [TimeSeries_fetched env t]) ++ post).
    2:{ rewrite <- (Nat.add_0_r (length pre)) at 1.
        rewrite insert_app_r. cbn. by rewrite <- app_assoc. }
    specialize (IH (pre ++ [TimeSeries_fetched env t])).
    rewrite length_app in IH. cbn [length] in IH. rewrite Nat.add_1_r in IH.
    rewrite IH; [|done|done].
    cbn [fmap list_fmap concat]. run.
    rewrite extend_extend. by rewrite <- app_assoc.
Qed.

Lemma Site_catalog_fresh s l :
  Forall (λ t, TimeSeries__series t = []) (Site_catalog s l).
Proof. unfold Site_catalog. apply Forall_fmap. by apply Forall_true. Qed.

Lemma count_fetch_events (l : list (@TimeSeries Float Datetime Quantity)) :
  count is_GetValuesObject (concat (fetch_events env <$> l)) = length l
  ∧ count is_GetSiteInfoObject (concat (fetch_events env <$> l)) = 0
  ∧ count is_remote (concat (fetch_events env <$> l)) = length l.
Proof.
  induction l as [|t l (IH1 & IH2 & IH3)]; [done|].
  cbn [fmap list_fmap concat length]. rewrite !count_app.
  fold (fmap (M:=list) (fetch_events env) l). rewrite IH1, IH2, IH3. done.
Qed.

Lemma catalog_series_single info l : single info l → catalog_series info = Some l.
Proof. unfold single, catalog_series. by intros ->. Qed.

Lemma cache_off_miss e w : cache_off env e = true → cache_miss env e w = true.
Proof. destruct e as [s|s|t]; cbn; by repeat case_match. Qed.

Lemma Site_dataframe_unpopulated s w series_list :
  Site__timeseries_list s = [] →
  Site__dataframe s = None →
  cache_off env (ESite s) = true →
  single (Site_response env s) series_list →
  let timeseries_list := Site_catalog s series_list in
  let columns :=
    (λ t, (Variable_code (TimeSeries_variable t), (TimeSeries_response env t).1))
      <$> timeseries_list in
  let frame := Some {| DataFrame_data := dict columns |} in
  let s' :=
    Site_set__dataframe frame
      (Site_set__timeseries_list (TimeSeries_fetched env <$> timeseries_list)
         (Site_set__site_info (Some (Site_response env s)) s)) in
  let evs :=
    [Called (Site_request s); Assigned A_site_info; Assigned A_timeseries_list]
      ++ concat (fetch_events env <$> timeseries_list)
      ++ [Assigned A_dataframe] in
  Site_dataframe env (s, w) = (Return frame, (s', extend w evs)).
Proof.
  intros Hl Hd Hoff Hsingle. cbn zeta.
  unfold Site_dataframe. run. rewrite Hl. cbn [length].
  rewrite bool_decide_eq_true_2 by done.
  rewrite Site__update_site_info_run, (shape_check_single _ _ Hsingle). run.
  rewrite Hd. unfold truth_dataframe. run. cbn [negb].
  unfold Site__update_dataframe. run.
  rewrite Site_timeseries_list_run. run. rewrite Hl. cbn [length].
  rewrite bool_decide_eq_true_2 by done.
  rewrite Site__update_timeseries_list_miss by (by apply cache_off_miss).
  cbn zeta. run.
  rewrite (catalog_series_single _ _ Hsingle).
  unfold Site_write, Site_lookup. run.
  cbn [cache_off] in Hoff.
  destruct (cache_enabled env (Site__use_cache s)); [done|].
  run. rewrite extend_nil, !extend_extend.
  rewrite (columns_run [] (Site_catalog s series_list)); 
    [|apply Site_catalog_fresh|done].
  run. rewrite !extend_extend. cbn [app]. done.
Qed.

(** C5.  A Site as constructed, with no cache in play, whose site-detail
    payload has one site entry with one series catalog: [dataframe] makes
    the get-site-detail call and assigns [_site_info], then assigns
    [_timeseries_list], then makes one get-values call for each series
    of the catalog in turn, then assigns [_dataframe], in that order and
    with nothing else: one get-site-detail call, and as many get-values
    calls as there are series. *)
Theorem Site_dataframe_fresh
    code name id network latitude longitude source use_cache w0 s w series_list :
  Site___init__ code name id network latitude longitude source use_cache w0
    = (Return s, w) →
  cache_enabled env use_cache = None →
  single (Site_response env s) series_list →
  let timeseries_list := Site_catalog s series_list in
  let columns :=
    (λ t, (Variable_code (TimeSeries_variable t), (TimeSeries_response env t).1))
      <$> timeseries_list in
  let frame := Some {| DataFrame_data := dict columns |} in
  let s' :=
    Site_set__dataframe frame
      (Site_set__timeseries_list (TimeSeries_fetched env <$> timeseries_list)
         (Site_set__site_info (Some (Site_response env s)) s)) in
  let evs :=
    [Called (Site_request s); Assigned A_site_info; Assigned A_timeseries_list]
      ++ concat (fetch_events env <$> timeseries_list)
      ++ [Assigned A_dataframe] in
  Site_dataframe env (s, w) = (Return frame, (s', extend w evs))
  ∧ count is_GetSiteInfoObject evs = 1
  ∧ count is_GetValuesObject evs = length series_list.
Proof.
  intros Hinit Hcache Hsingle. cbn zeta.
  unfold Site___init__, shapely_geometry_Point in Hinit.
  destruct longitude as [longitude|], latitude as [latitude|];
    run in Hinit; try discriminate Hinit.
  injection Hinit as <- <-.
  split; [|split].
  - apply Site_dataframe_unpopulated; try done. cbn. by rewrite Hcache.
  - rewrite !count_app. destruct (count_fetch_events (Site_catalog
      {| Site_code := code; Site_name := name; Site_id := id; Site_network := network;
       Site_location := {| Point_x := longitude; Point_y := latitude |};
       Site_source := source; Site__use_cache := use_cache;
       Site__site_info := None; Site__timeseries_list := [];
       Site__dataframe := None |} series_list)) as (_ & -> & _). done.
  - rewrite !count_app. destruct (count_fetch_events (Site_catalog
      {| Site_code := code; Site_name := name; Site_id := id; Site_network := network;
       Site_location := {| Point_x := longitude; Point_y := latitude |};
       Site_source := source; Site__use_cache := use_cache;
       Site__site_info := None; Site__timeseries_list := [];
       Site__dataframe := None |} series_list)) as (-> & _ & _).
    unfold Site_catalog. rewrite length_fmap. cbn. lia.
Qed.

(** *** Source *)

Lemma comprehension_site_from_wml_siteInfo src (l : list (@WmlSiteInfo Float)) w :
  comprehension (λ site, util__site_from_wml_siteInfo site src) l w
  = (Return ((λ d, {| Site_code := wml_code d; Site_name := wml_name d;
           Site_id := wml_id d; Site_network := wml_network d;
           Site_location :=
             {| Point_x := wml_longitude d; Point_y := wml_latitude d |};
           Site_source := Source_ref src;
           Site__use_cache := true;
           Site__site_info := None;
           Site__timeseries_list := [];
           Site__dataframe := None |}) <$> l), w).
Proof.
  induction l as [|d l IH]; [done|].
  cbn [comprehension]. run.
  unfold util__site_from_wml_siteInfo at 1, Site___init__,
    shapely_geometry_Point. run.
  by rewrite IH.
Qed.

Lemma Source__update_sites_hit src w c :
  cache_enabled env (Source__use_cache src) = Some c →
  size (_get_cached_sites c src (cache_state w)) ≠ 0 →
  Source__update_sites env (src, w)
  = (Return tt,
     (Source_set__sites (_get_cached_sites c src (cache_state w)) src,
      extend w [Called (cache__get_cached_sites (Source_ref src));
                Assigned A_sites])).
Proof.
  intros Hc Hhit. unfold Source__update_sites. run.
  rewrite Hc. run. rewrite bool_decide_eq_true_2 by done. run.
  by rewrite extend_extend.
Qed.

Lemma Source__update_sites_miss src w :
  cache_miss env (ESource src) w = true →
  let src' := Source_set__sites (Source_fetched_sites env src) src in
  Source__update_sites env (src, w)
  = (Return tt,
     (src',
      Source_write env (Source_site_list env src) src'
        (extend w (Source_lookup env src
                   ++ [Called (GetSites (Source_suds_client src) "");
                       Assigned A_sites])))).
Proof.
  intros Hmiss. cbn zeta.
  unfold Source__update_sites, Source_lookup, Source_write, Source_fetched_sites,
    Source_site_list.
  cbn [cache_miss] in Hmiss. run.
  destruct (cache_enabled env (Source__use_cache src)) as [c|] eqn:Hc; run.
  - apply bool_decide_eq_true in Hmiss.
    rewrite bool_decide_eq_false_2 by lia. run.
    rewrite comprehension_site_from_wml_siteInfo. run.
    by rewrite !extend_extend.
  - rewrite comprehension_site_from_wml_siteInfo. run.
    by rewrite !extend_extend.
Qed.

Lemma Source_sites_run src w :
  Source_sites env (src, w)
  = if bool_decide (size (Source__sites src) = 0)
    then let '(r, st') := Source__update_sites env (src, w) in
         (match r with
          | Return _ => Return (Source__sites st'.1)
          | Raise e => Raise e
          end, st')
    else (Return (Source__sites src), (src, w)).
Proof.
  unfold Source_sites. run. case_bool_decide; run; [|done].
  destruct (Source__update_sites env (src, w)) as [[u|e] st']; by run.
Qed.

End RunEquations.

(** ** The claims *)

Section Claims.
Context {Float Datetime Quantity TimeSeriesResponse CacheState : Type}.
Context (env : @Env Float Datetime Quantity TimeSeriesResponse CacheState).
Implicit Types (t : @TimeSeries Float Datetime Quantity).
Implicit Types (s : @Site Float Datetime Quantity).
Implicit Types (src : @Source Float Datetime Quantity).
Implicit Types (w : @World Float Datetime Quantity CacheState).
Implicit Types (info : @SiteInfoResponse Float Datetime).

(** Once populated, an accessor returns its backing value and does
    nothing else. *)
Lemma Source_sites_populated src w :
  populated env acc_sites (ESource src) = true →
  Source_sites env (src, w) = (Return (Source__sites src), (src, w)).
Proof.
  cbn [populated]. intros H%negb_true_iff. by rewrite Source_sites_run, H.
Qed.

Lemma Site_site_info_populated s w :
  populated env acc_site_info (ESite s) = true →
  Site_site_info env (s, w) = (Return (Site__site_info s), (s, w)).
Proof.
  cbn [populated]. rewrite Site_site_info_run. by destruct (Site__site_info s).
Qed.

Lemma Site_timeseries_list_populated s w :
  populated env acc_timeseries_list (ESite s) = true →
  Site_timeseries_list env (s, w) = (Return (Site__timeseries_list s), (s, w)).
Proof.
  cbn [populated]. intros H%negb_true_iff. by rewrite Site_timeseries_list_run, H.
Qed.

Lemma Site_dataframe_populated s w :
  populated env acc_dataframe (ESite s) = true →
  Site_dataframe env (s, w) = (Return (Site__dataframe s), (s, w)).
Proof.
  cbn [populated]. intros [Hl Hd]%andb_true_iff. apply negb_true_iff in Hl.
  unfold Site_dataframe. run. rewrite Hl. run.
  destruct (Site__dataframe s) as [df|] eqn:Hdf; [|done].
  unfold truth_dataframe. run.
  destruct (DataFrame_bool env df) as [[|]|]; try done.
  cbn [negb fst snd]. by rewrite Hdf.
Qed.

Lemma TimeSeries_series_populated t w :
  populated env acc_series (ETimeSeries t) = true →
  TimeSeries_series env (t, w) = (Return (TimeSeries__series t), (t, w)).
Proof.
  cbn [populated]. intros H%negb_true_iff. by rewrite TimeSeries_series_run, H.
Qed.

Lemma TimeSeries_quantity_populated t w :
  populated env acc_quantity (ETimeSeries t) = true →
  TimeSeries_quantity env (t, w) = (Return (TimeSeries__quantity t), (t, w)).
Proof.
  cbn [populated]. intros H. by rewrite TimeSeries_quantity_run, H.
Qed.

(** An accessor that returns, returns the backing value it leaves
    behind. *)
Lemma Source_sites_returns src w v src1 w1 :
  Source_sites env (src, w) = (Return v, (src1, w1)) → v = Source__sites src1.
Proof.
  rewrite Source_sites_run. case_bool_decide.
  - destruct (Source__update_sites env (src, w)) as [[u|e] [src' w']]; naive_solver.
  - naive_solver.
Qed.

Lemma Site_site_info_returns s w v s1 w1 :
  Site_site_info env (s, w) = (Return v, (s1, w1)) → v = Site__site_info s1.
Proof.
  rewrite Site_site_info_run. destruct (Site__site_info s) eqn:E.
  - intros [= <- <- <-]. done.
  - destruct (shape_check _); naive_solver.
Qed.

Lemma Site_timeseries_list_returns s w v s1 w1 :
  Site_timeseries_list env (s, w) = (Return v, (s1, w1)) →
  v = Site__timeseries_list s1.
Proof.
  rewrite Site_timeseries_list_run. case_bool_decide.
  - destruct (Site__update_timeseries_list env (s, w)) as [[u|e] [s' w']];
      naive_solver.
  - naive_solver.
Qed.

Lemma Site_dataframe_returns s w v s1 w1 :
  Site_dataframe env (s, w) = (Return v, (s1, w1)) → v = Site__dataframe s1.
Proof.
  unfold Site_dataframe. run.
  destruct (if bool_decide (length (Site__timeseries_list s) = 0)
            then Site__update_site_info env else λ st, (Return (), st))
    as [[u|e] [s' w']]; [|done].
  destruct (truth_dataframe env (Site__dataframe (s', w').1) (s', w'))
    as [[b|e] [s'' w'']]; [|done].
  destruct (if negb b then Site__update_dataframe env else λ st, (Return (), st))
    as [[u'|e] [s3 w3]]; [|done].
  cbn [fst snd]. naive_solver.
Qed.

Lemma TimeSeries_series_returns t w v t1 w1 :
  TimeSeries_series env (t, w) = (Return v, (t1, w1)) → v = TimeSeries__series t1.
Proof. rewrite TimeSeries_series_run. case_bool_decide; naive_solver. Qed.

Lemma TimeSeries_quantity_returns t w v t1 w1 :
  TimeSeries_quantity env (t, w) = (Return v, (t1, w1)) →
  v = TimeSeries__quantity t1.
Proof.
  rewrite TimeSeries_quantity_run.
  destruct (truth_quantity env (TimeSeries__quantity t)); naive_solver.
Qed.

(** The remote calls of a first access, when nothing is fetched yet and
    no cache is in play. *)
Lemma Source_sites_first src w r src1 w1 :
  unpopulated env acc_sites (ESource src) = true →
  cache_off env (ESource src) = true →
  Source_sites env (src, w) = (r, (src1, w1)) →
  count is_remote (trace w1) = count is_remote (trace w) + 1.
Proof.
  cbn [unpopulated populated cache_off]. rewrite negb_involutive. intros Hempty Hoff.
  rewrite Source_sites_run, Hempty.
  rewrite Source__update_sites_miss by (by apply cache_off_miss).
  unfold Source_write, Source_lookup. cbn [Source_set__sites Source__use_cache].
  destruct (cache_enabled env (Source__use_cache src)); [done|].
  intros [= _ _ <-]. by rewrite count_extend.
Qed.

Lemma Site_site_info_first s w r s1 w1 :
  unpopulated env acc_site_info (ESite s) = true →
  Site_site_info env (s, w) = (r, (s1, w1)) →
  count is_remote (trace w1) = count is_remote (trace w) + 1.
Proof.
  cbn [unpopulated populated]. rewrite Site_site_info_run.
  destruct (Site__site_info s); [done|]. intros _ [= _ _ <-].
  by rewrite count_extend.
Qed.

Lemma Site_timeseries_list_first s w v s1 w1 :
  unpopulated env acc_timeseries_list (ESite s) = true →
  cache_off env (ESite s) = true →
  Site_timeseries_list env (s, w) = (Return v, (s1, w1)) →
  count is_remote (trace w1) = count is_remote (trace w) + 1.
Proof.
  cbn [unpopulated populated cache_off]. rewrite negb_involutive.
  intros [Hempty Hinfo]%andb_true_iff Hoff.
  rewrite Site_timeseries_list_run, Hempty.
  rewrite Site__update_timeseries_list_miss by (by apply cache_off_miss).
  cbn zeta. unfold Site_write, Site_lookup.
  destruct (Site__site_info s); [done|].
  cbn [Site_set__timeseries_list Site_set__site_info Site__use_cache].
  destruct (cache_enabled env (Site__use_cache s)); [done|].
  destruct (shape_check (Site_response env s)); [|done].
  destruct (catalog_series (Site_response env s)); [|done].
  intros [= _ _ <-]. rewrite !count_extend. cbn. lia.
Qed.

Lemma TimeSeries_series_first t w r t1 w1 :
  unpopulated env acc_series (ETimeSeries t) = true →
  TimeSeries_series env (t, w) = (r, (t1, w1)) →
  count is_remote (trace w1) = count is_remote (trace w) + 1.
Proof.
  cbn [unpopulated populated]. rewrite negb_involutive. intros Hempty.
  rewrite TimeSeries_series_run, Hempty. intros [= _ _ <-].
  by rewrite count_extend.
Qed.

Lemma TimeSeries_quantity_first t w r t1 w1 :
  unpopulated env acc_quantity (ETimeSeries t) = true →
  TimeSeries_quantity env (t, w) = (r, (t1, w1)) →
  count is_remote (trace w1) = count is_remote (trace w) + 1.
Proof.
  cbn [unpopulated populated]. intros Hfalsy%negb_true_iff.
  rewrite TimeSeries_quantity_run, Hfalsy. intros [= _ _ <-].
  by rewrite count_extend.
Qed.

(** Attribute access, read back as the run of the property behind it. *)
Lemma getattr_inv a e w v e1 w1 :
  getattr env a (e, w) = (Return v, (e1, w1)) →
  match a, e with
  | acc_sites, ESource src =>
      ∃ x src1, Source_sites env (src, w) = (Return x, (src1, w1))
                ∧ v = VSites x ∧ e1 = ESource src1
  | acc_site_info, ESite s =>
      ∃ x s1, Site_site_info env (s, w) = (Return x, (s1, w1))
              ∧ v = VSiteInfo x ∧ e1 = ESite s1
  | acc_timeseries_list, ESite s =>
      ∃ x s1, Site_timeseries_list env (s, w) = (Return x, (s1, w1))
              ∧ v = VTimeseriesList x ∧ e1 = ESite s1
  | acc_dataframe, ESite s =>
      ∃ x s1, Site_dataframe env (s, w) = (Return x, (s1, w1))
              ∧ v = VDataframe x ∧ e1 = ESite s1
  | acc_series, ETimeSeries t =>
      ∃ x t1, TimeSeries_series env (t, w) = (Return x, (t1, w1))
              ∧ v = VSeries x ∧ e1 = ETimeSeries t1
  | acc_quantity, ETimeSeries t =>
      ∃ x t1, TimeSeries_quantity env (t, w) = (Return x, (t1, w1))
              ∧ v = VQuantity x ∧ e1 = ETimeSeries t1
  | _, _ => False
  end.
Proof.
  destruct a, e as [src|s|t]; cbn [getattr on_source on_site on_series fst snd];
    try discriminate.
  - destruct (Source_sites env (src, w)) as [[x|err] [src1 w1']]; naive_solver.
  - destruct (Site_site_info env (s, w)) as [[x|err] [s1 w1']]; naive_solver.
  - destruct (Site_timeseries_list env (s, w)) as [[x|err] [s1 w1']]; naive_solver.
  - destruct (Site_dataframe env (s, w)) as [[x|err] [s1 w1']]; naive_solver.
  - destruct (TimeSeries_series env (t, w)) as [[x|err] [t1 w1']]; naive_solver.
  - destruct (TimeSeries_quantity env (t, w)) as [[x|err] [t1 w1']]; naive_solver.
Qed.

(** C2 (amended).  For each of the six lazy accessors: if an access
    returns and leaves the backing value populated, the next access
    returns the same value and changes nothing, making no call at all.
    If moreover nothing had been fetched before the first access, no
    cache is in play and the accessor is not [dataframe], the two
    accesses together make exactly one remote call. *)
Theorem lazy_accessor_idempotent_once_populated a e w v e1 w1 :
  getattr env a (e, w) = (Return v, (e1, w1)) →
  populated env a e1 = true →
  getattr env a (e1, w1) = (Return v, (e1, w1))
  ∧ (a ≠ acc_dataframe →
     unpopulated env a e = true →
     cache_off env e = true →
     count is_remote (trace w1) = count is_remote (trace w) + 1).
Proof.
  intros Hfirst Hpop. apply getattr_inv in Hfirst.
  destruct a, e as [src|s|t]; try done;
    destruct Hfirst as (x & y & Hrun & -> & ->);
    cbn [getattr on_source on_site on_series fst snd].
  - assert (x = Source__sites y) as -> by (by eapply Source_sites_returns).
    rewrite Source_sites_populated by done.
    split; [done|]. intros _ Hun Hoff. by eapply Source_sites_first.
  - assert (x = Site__site_info y) as -> by (by eapply Site_site_info_returns).
    rewrite Site_site_info_populated by done.
    split; [done|]. intros _ Hun Hoff. by eapply Site_site_info_first.
  - assert (x = Site__timeseries_list y) as -> by (by eapply Site_timeseries_list_returns).
    rewrite Site_timeseries_list_populated by done.
    split; [done|]. intros _ Hun Hoff. by eapply Site_timeseries_list_first.
  - assert (x = Site__dataframe y) as -> by (by eapply Site_dataframe_returns).
    rewrite Site_dataframe_populated by done.
    split; [done|]. by intros [].
  - assert (x = TimeSeries__series y) as -> by (by eapply TimeSeries_series_returns).
    rewrite TimeSeries_series_populated by done.
    split; [done|]. intros _ Hun Hoff. by eapply TimeSeries_series_first.
  - assert (x = TimeSeries__quantity y) as -> by (by eapply TimeSeries_quantity_returns).
    rewrite TimeSeries_quantity_populated by done.
    split; [done|]. intros _ Hun Hoff. by eapply TimeSeries_quantity_first.
Qed.

(** A cache lookup that does not miss returns a non-empty list. *)
Lemma cache_miss_false_site s w :
  cache_miss env (ESite s) w = false →
  ∃ c, cache_enabled env (Site__use_cache s) = Some c
       ∧ length (_get_cached_timeseries_list c s (cache_state w)) ≠ 0.
Proof.
  cbn [cache_miss]. destruct (cache_enabled env (Site__use_cache s)) as [c|]; [|done].
  intros H%bool_decide_eq_false. by exists c.
Qed.

(** A first access to [timeseries_list] that returns an empty list has
    gone through the site-detail payload, and has left it behind. *)
Lemma Site_timeseries_list_empty_inv s w v s1 w1 :
  Site_timeseries_list env (s, w) = (Return v, (s1, w1)) →
  populated env acc_timeseries_list (ESite s1) = false →
  ∃ info, Site__site_info s1 = Some info
          ∧ catalog_series info = Some []
          ∧ Site__timeseries_list s1 = [].
Proof.
  cbn [populated]. rewrite negb_false_iff, bool_decide_eq_true, length_zero_iff_nil.
  rewrite Site_timeseries_list_run. case_bool_decide as Hlen.
  - destruct (cache_miss env (ESite s) w) eqn:Hmiss.
    + rewrite Site__update_timeseries_list_miss by done. cbn zeta.
      destruct (Site__site_info s) as [info|] eqn:Hinfo.
      * destruct (catalog_series info) as [l|] eqn:Hl; [|done].
        intros [= _ <- _]. cbn. unfold Site_catalog.
        intros ->%fmap_nil_inv. by exists info.
      * destruct (shape_check (Site_response env s)); [|done].
        destruct (catalog_series (Site_response env s)) as [l|] eqn:Hl; [|done].
        intros [= _ <- _]. cbn. unfold Site_catalog.
        intros ->%fmap_nil_inv. by eexists.
    + apply cache_miss_false_site in Hmiss as (c & Hc & Hhit).
      rewrite (Site__update_timeseries_list_hit _ _ _ c) by done.
      intros [= _ <- _]. cbn. intros Hnil. by rewrite Hnil in Hhit.
  - intros [= _ <- _] Hnil. by rewrite Hnil in Hlen.
Qed.

(** With that payload in place, the empty list is built again from it,
    and nothing is asked of the remote service. *)
Lemma Site_timeseries_list_rebuilt s w info :
  Site__site_info s = Some info →
  catalog_series info = Some [] →
  Site__timeseries_list s = [] →
  cache_miss env (ESite s) w = true →
  Site_timeseries_list env (s, w)
  = (Return [],
     (s, Site_write env s
           (extend w (Site_lookup env s ++ [Assigned A_timeseries_list])))).
Proof.
  intros Hinfo Hcat Hl Hmiss.
  rewrite Site_timeseries_list_run, Hl. cbn [length].
  rewrite bool_decide_eq_true_2 by done.
  rewrite Site__update_timeseries_list_miss by done. cbn zeta.
  rewrite Hinfo, Hcat. cbn [Site_catalog fmap list_fmap].
  rewrite <- Hl, Site_set__timeseries_list_id. cbn [fst]. rewrite Hl.
  by rewrite extend_extend.
Qed.

Lemma trace_Site_write s w :
  ∃ evs, trace (Site_write env s w) = trace w ++ evs ∧ count is_remote evs = 0.
Proof.
  unfold Site_write. destruct (cache_enabled env (Site__use_cache s)).
  - by eexists.
  - exists []. by rewrite app_nil_r.
Qed.

Lemma trace_Source_write l src w :
  ∃ evs, trace (Source_write env l src w) = trace w ++ evs
         ∧ count is_remote evs = 0.
Proof.
  unfold Source_write. destruct (cache_enabled env (Source__use_cache src)).
  - by eexists.
  - exists []. by rewrite app_nil_r.
Qed.

Lemma count_Site_lookup s : count is_remote (Site_lookup env s) = 0.
Proof. unfold Site_lookup. by destruct (cache_enabled _ _). Qed.

Lemma count_Source_lookup src : count is_remote (Source_lookup env src) = 0.
Proof. unfold Source_lookup. by destruct (cache_enabled _ _). Qed.

(** C10 (amended).  For [sites], [timeseries_list] and [series]: if an
    access returns and leaves the backing value empty, the next access
    (the cache, if any, holding nothing for the object) populates again:
    it assigns the backing attribute anew.  For [sites] and [series] it
    makes exactly one remote call to do so; for [timeseries_list] it
    makes none, since it rebuilds the list from the site-detail payload
    that the first access left in [_site_info]. *)
Theorem empty_result_is_not_memoized a e w v e1 w1 :
  a = acc_sites ∨ a = acc_timeseries_list ∨ a = acc_series →
  getattr env a (e, w) = (Return v, (e1, w1)) →
  populated env a e1 = false →
  cache_miss env e1 w1 = true →
  ∃ v2 e2 w2 evs,
    getattr env a (e1, w1) = (Return v2, (e2, w2))
    ∧ trace w2 = trace w1 ++ evs
    ∧ Assigned (backing a) ∈ evs
    ∧ count is_remote evs = match a with acc_timeseries_list => 0 | _ => 1 end.
Proof.
  intros Ha Hfirst Hempty Hmiss. apply getattr_inv in Hfirst.
  destruct Ha as [-> | [-> | ->]]; destruct e as [src|s|t]; try done;
    destruct Hfirst as (x & y & Hrun & -> & ->);
    cbn [getattr on_source on_site on_series fst snd backing].
  - cbn [populated] in Hempty. apply negb_false_iff in Hempty.
    rewrite Source_sites_run, Hempty.
    rewrite Source__update_sites_miss by done. cbn zeta.
    destruct (trace_Source_write (Source_site_list env y)
                (Source_set__sites (Source_fetched_sites env y) y)
                (extend w1 (Source_lookup env y
                   ++ [Called (GetSites (Source_suds_client y) ""); Assigned A_sites])))
      as (evs & Hevs & Hcount).
    eexists _, _, _, _. split; [done|split; [|split]].
    + rewrite Hevs. cbn [trace extend]. by rewrite <- app_assoc.
    + set_solver.
    + rewrite !count_app, Hcount, count_Source_lookup. done.
  - destruct (Site_timeseries_list_empty_inv _ _ _ _ _ Hrun Hempty)
      as (info & Hinfo & Hcat & Hl).
    rewrite (Site_timeseries_list_rebuilt _ _ info) by done.
    destruct (trace_Site_write y
                (extend w1 (Site_lookup env y ++ [Assigned A_timeseries_list])))
      as (evs & Hevs & Hcount).
    eexists _, _, _, _. split; [done|split; [|split]].
    + rewrite Hevs. cbn [trace extend]. by rewrite <- app_assoc.
    + set_solver.
    + rewrite !count_app, Hcount, count_Site_lookup. done.
  - cbn [populated] in Hempty. apply negb_false_iff in Hempty.
    rewrite TimeSeries_series_run, Hempty.
    eexists _, _, _, _. split; [done|split; [done|split]].
    + unfold fetch_events. set_solver.
    + done.
Qed.

(** C1 (the code departs from it).  A Site with nothing fetched, whose
    site-detail payload has more than one site entry, or one site entry
    with more than one series catalog: [timeseries_list] and [site_info]
    both raise [NotImplementedError], and [_timeseries_list] stays unset.
    But the payload was stored before it was checked: [_site_info] holds
    it, and from then on [site_info] returns it, with no error and no
    remote call. *)
Theorem Site_multiple_payload_is_kept s w :
  Site__site_info s = None →
  Site__timeseries_list s = [] →
  cache_miss env (ESite s) w = true →
  multiple (Site_response env s) →
  let fetch := [Called (Site_request s); Assigned A_site_info] in
  let s' := Site_set__site_info (Some (Site_response env s)) s in
  Site_timeseries_list env (s, w)
    = (Raise NotImplementedError, (s', extend w (Site_lookup env s ++ fetch)))
  ∧ Site_site_info env (s, w)
    = (Raise NotImplementedError, (s', extend w fetch))
  ∧ Site__site_info s' = Some (Site_response env s)
  ∧ Site__timeseries_list s' = []
  ∧ ∀ w', Site_site_info env (s', w')
          = (Return (Some (Site_response env s)), (s', w')).
Proof.
  intros Hi Hl Hmiss Hmult. cbn zeta.
  pose proof (shape_check_multiple _ Hmult) as Hcheck.
  split; [|split; [|split; [|split]]].
  - rewrite Site_timeseries_list_run, Hl. cbn [length].
    rewrite bool_decide_eq_true_2 by done.
    rewrite Site__update_timeseries_list_miss by done. cbn zeta.
    rewrite Hi, Hcheck. by rewrite extend_extend.
  - by rewrite Site_site_info_run, Hi, Hcheck.
  - done.
  - done.
  - intros w'. by rewrite Site_site_info_run.
Qed.

(** Every state a TimeSeries goes through has its two backing fields
    both unset or both holding the result of its get-values exchange. *)
Lemma TimeSeries_reachable_paired t :
  TimeSeries_reachable env t → TimeSeries_unset t ∨ TimeSeries_paired env t.
Proof.
  induction 1 as [v c m q b e site w t w' Hinit
                 |t w r t' w' _ IH Hrun|t w r t' w' _ IH Hrun].
  - left. unfold TimeSeries___init__ in Hinit. run in Hinit.
    injection Hinit as <- _. by split.
  - rewrite TimeSeries_series_run in Hrun. case_bool_decide.
    + injection Hrun as _ <- _. right. apply TimeSeries_fetched_paired.
    + by injection Hrun as _ <- _.
  - rewrite TimeSeries_quantity_run in Hrun.
    destruct (truth_quantity env (TimeSeries__quantity t)).
    + by injection Hrun as _ <- _.
    + injection Hrun as _ <- _. right. apply TimeSeries_fetched_paired.
Qed.

(** C3 (amended).  A TimeSeries built by its constructor and used
    through [series] and [quantity] has its two backing fields either both
    unset or both holding the two halves of the result of its get-values
    exchange.  When an access to [series] or to [quantity] returns, it
    returns its half of that result, and it has either found its backing
    value populated and changed nothing, or made the get-values call
    once and then assigned [_series] and [_quantity], in that order and
    with nothing in between, from the result of that one call.  The two
    are both populated exactly when the exchange yields a non-empty value
    series and a true quantity. *)
Theorem TimeSeries_pair_assigned_together t w :
  TimeSeries_reachable env t →
  let exchange :=
    [Called (TimeSeries_request env t); Assigned A_series; Assigned A_quantity] in
  (TimeSeries_unset t ∨ TimeSeries_paired env t)
  ∧ count is_remote exchange = 1
  ∧ count is_GetValuesObject exchange = 1
  ∧ (∀ v t' w',
       TimeSeries_series env (t, w) = (Return v, (t', w')) →
       v = (TimeSeries_response env t).1
       ∧ TimeSeries_paired env t'
       ∧ if populated env acc_series (ETimeSeries t)
         then t' = t ∧ w' = w
         else t' = TimeSeries_fetched env t ∧ w' = extend w exchange)
  ∧ (∀ v t' w',
       TimeSeries_quantity env (t, w) = (Return v, (t', w')) →
       v = Some (TimeSeries_response env t).2
       ∧ TimeSeries_paired env t'
       ∧ if populated env acc_quantity (ETimeSeries t)
         then t' = t ∧ w' = w
         else t' = TimeSeries_fetched env t ∧ w' = extend w exchange)
  ∧ ∀ t', TimeSeries_paired env t' →
      (populated env acc_series (ETimeSeries t') = true
       ∧ populated env acc_quantity (ETimeSeries t') = true)
      ↔ ((TimeSeries_response env t').1 ≠ []
         ∧ Quantity_bool env (TimeSeries_response env t').2 = true).
Proof.
  intros Hpair%TimeSeries_reachable_paired. cbn zeta.
  split; [done|]. split; [done|]. split; [done|]. split; [|split].
  - intros v t' w'. rewrite TimeSeries_series_run. cbn [populated].
    case_bool_decide as Hlen; cbn [negb]; intros [= <- <- <-].
    + split; [done|]. split; [apply TimeSeries_fetched_paired|done].
    + destruct Hpair as [[Hs _]|[Hs Hq]].
      * by rewrite Hs in Hlen.
      * split; [done|]. split; [by split|done].
  - intros v t' w'. rewrite TimeSeries_quantity_run. cbn [populated].
    destruct (truth_quantity env (TimeSeries__quantity t)) eqn:Htruth;
      intros [= <- <- <-].
    + destruct Hpair as [[_ Hq]|[Hs Hq]].
      * by rewrite Hq in Htruth.
      * split; [done|]. split; [by split|done].
    + split; [done|]. split; [apply TimeSeries_fetched_paired|done].
  - intros t' [Hs Hq]. cbn [populated]. rewrite Hs, Hq. cbn [truth_quantity].
    rewrite negb_true_iff, bool_decide_eq_false, length_zero_iff_nil. done.
Qed.

(** C4.  A Source with caching enabled, a cache module present, and
    no sites yet: when the cache returns a non-empty mapping, [sites]
    returns exactly that mapping, after the cache lookup and the
    assignment of [_sites] and nothing else; list-sites is not called. *)
Theorem Source_sites_cache_precedence src w c :
  Source__use_cache src = true →
  cache env = Some c →
  Source__sites src = ∅ →
  _get_cached_sites c src (cache_state w) ≠ ∅ →
  let cached := _get_cached_sites c src (cache_state w) in
  let evs := [Called (cache__get_cached_sites (Source_ref src)); Assigned A_sites] in
  Source_sites env (src, w)
    = (Return cached, (Source_set__sites cached src, extend w evs))
  ∧ count is_GetSites evs = 0.
Proof.
  intros Huse Hcache Hempty Hhit. cbn zeta. split; [|done].
  rewrite Source_sites_run, Hempty, map_size_empty.
  rewrite bool_decide_eq_true_2 by done.
  rewrite (Source__update_sites_hit env src w c).
  - done.
  - unfold cache_enabled. by rewrite Huse.
  - by apply map_size_non_empty_iff.
Qed.

(** C7.  A Source with caching enabled, a cache module present, and
    no sites yet: when the cache returns an empty mapping, one access to
    [sites] looks the cache up, calls list-sites, assigns [_sites], and
    writes the full fetched site list to the cache before it returns. *)
Theorem Source_sites_cache_population src w c :
  Source__use_cache src = true →
  cache env = Some c →
  Source__sites src = ∅ →
  _get_cached_sites c src (cache_state w) = ∅ →
  let site_list := Source_site_list env src in
  let src' := Source_set__sites (Source_fetched_sites env src) src in
  let evs :=
    [Called (cache__get_cached_sites (Source_ref src));
     Called (GetSites (Source_suds_client src) "");
     Assigned A_sites;
     Called (cache__update_cache_sites site_list (Source_ref src))] in
  Source_sites env (src, w)
  = (Return (Source_fetched_sites env src),
     (src', store (_update_cache_sites c site_list src') (extend w evs))).
Proof.
  intros Huse Hcache Hempty Hmiss. cbn zeta.
  assert (cache_enabled env (Source__use_cache src) = Some c) as Hc
    by (unfold cache_enabled; by rewrite Huse).
  rewrite Source_sites_run, Hempty, map_size_empty.
  rewrite bool_decide_eq_true_2 by done.
  rewrite Source__update_sites_miss.
  2:{ cbn [cache_miss]. rewrite Hc, Hmiss, map_size_empty. by apply bool_decide_eq_true_2. }
  cbn zeta. unfold Source_write, Source_lookup. cbn [Source_set__sites Source__use_cache].
  rewrite Hc. cbn [fst snd Source__sites Source_set__sites].
  by rewrite extend_extend.
Qed.

(** C8.  A Source with caching disabled and no sites yet, whose
    list-sites answer is the single descriptor with network "NWISDV" and
    code "01234": [sites] returns the mapping with the single key "01234",
    bound to a Site of network "NWISDV" whose source is that Source. *)
Theorem Source_sites_single_descriptor src w d :
  Source__use_cache src = false →
  Source__sites src = ∅ →
  SitesResponse_site (service_GetSites env (Source_suds_client src) "") = [d] →
  wml_network d = "NWISDV" →
  wml_code d = "01234" →
  ∃ site : Site,
    Source_sites env (src, w)
    = (Return {[ "01234" := site ]},
       (Source_set__sites {[ "01234" := site ]} src,
        extend w [Called (GetSites (Source_suds_client src) ""); Assigned A_sites]))
    ∧ Site_network site = "NWISDV"
    ∧ Site_code site = "01234"
    ∧ Site_source site = Source_ref src.
Proof.
  intros Huse Hempty Hresp Hnet Hcode.
  assert (cache_enabled env (Source__use_cache src) = None) as Hc
    by (unfold cache_enabled; by rewrite Huse).
  eexists. split; [|split; [|split]].
  - rewrite Source_sites_run, Hempty, map_size_empty.
    rewrite bool_decide_eq_true_2 by done.
    rewrite Source__update_sites_miss by (cbn [cache_miss]; by rewrite Hc).
    cbn zeta. unfold Source_write, Source_lookup. cbn [Source_set__sites Source__use_cache].
    rewrite Hc. cbn [fst snd Source__sites Source_set__sites app].
    unfold Source_fetched_sites, Source_site_list. rewrite Hresp.
    cbn [fmap list_fmap dict foldl fst snd Site_code]. rewrite Hcode.
    rewrite insert_empty. reflexivity.
  - done.
  - done.
  - done.
Qed.

(** C9.  [Source.__len__] returns [None] whatever the site mapping
    holds, so [len(source)] is a [TypeError]; neither touches the Source
    or the world. *)
Theorem Source_len_is_a_type_error src w :
  Source___len__ (src, w) = (Return None, (src, w))
  ∧ builtin_len Source___len__ (src, w) = (Raise TypeError, (src, w)).
Proof. done. Qed.

(** C6 (amended).  Constructing a Units, a Variable, a TimeSeries or a
    Site performs no I/O and issues no remote call: the world is left as
    it was, and the lazy fields start unset.  That holds for a Site also
    when its construction fails: [shapely.geometry.Point] raises
    [TypeError] when a coordinate is missing, and only then.
    Constructing a Source does one piece of I/O, the construction of the
    suds client for its URL, which is none of the three remote operations
    and no cache call; its site mapping starts empty.  An access to a lazy
    attribute that finds its backing value populated makes no call and
    changes nothing: the remote operations belong to the accesses that
    find it unpopulated. *)
Theorem constructors_issue_no_remote_call :
  (∀ name abbreviation code w,
     @Units___init__ Float Datetime Quantity CacheState name abbreviation code w
     = (Return {| Units_name := name; Units_abbreviation := abbreviation;
                  Units_code := code |}, w))
  ∧ (∀ name code id vocabulary units (no_data_value : Float) w,
       ∃ v, @Variable___init__ Float Datetime Quantity CacheState
              name code id vocabulary units no_data_value w = (Return v, w))
  ∧ (∀ variable count method quality_control_level begin_datetime end_datetime
       site w,
       ∃ t, TimeSeries___init__ variable count method quality_control_level
              begin_datetime end_datetime site w = (Return t, w)
            ∧ TimeSeries_unset t)
  ∧ (∀ code name id network latitude longitude source use_cache w,
       match latitude, longitude with
       | Some lat, Some lon =>
           ∃ s, Site___init__ code name id network latitude longitude source
                  use_cache w = (Return s, w)
                ∧ Site_latitude s = lat
                ∧ Site_longitude s = lon
                ∧ Site__site_info s = None
                ∧ Site__timeseries_list s = []
                ∧ Site__dataframe s = None
       | _, _ =>
           Site___init__ code name id network latitude longitude source
             use_cache w = (Raise TypeError, w)
       end)
  ∧ (∀ wsdl_url use_cache w,
       let evs : list (@Event Float Datetime Quantity) :=
         [Called (suds_client_Client wsdl_url)] in
       ∃ src, Source___init__ wsdl_url use_cache w = (Return src, extend w evs)
              ∧ Source__sites src = ∅
              ∧ count is_remote evs = 0
              ∧ count is_cache_call evs = 0)
  ∧ (∀ a e w, populated env a e = true →
       ∃ v, getattr env a (e, w) = (Return v, (e, w))).
Proof.
  split; [|split; [|split; [|split; [|split]]]].
  - done.
  - intros. by eexists.
  - intros. by eexists.
  - intros code name id network latitude longitude source use_cache w.
    unfold Site___init__, shapely_geometry_Point.
    destruct latitude as [lat|], longitude as [lon|]; run; try done.
    by eexists.
  - intros. by eexists.
  - intros a e w Hpop.
    destruct a, e as [src|s|t]; try done;
      cbn [getattr on_source on_site on_series fst snd].
    + rewrite Source_sites_populated by done. by eexists.
    + rewrite Site_site_info_populated by done. by eexists.
    + rewrite Site_timeseries_list_populated by done. by eexists.
    + rewrite Site_dataframe_populated by done. by eexists.
    + rewrite TimeSeries_series_populated by done. by eexists.
    + rewrite TimeSeries_quantity_populated by done. by eexists.
Qed.

End Claims.

(** * The claims on the concrete service *)

(** C1, witness: site "two-sites" answers with two site entries. *)
Lemma Site_multiple_payload_is_kept_witness :
  multiple (Site_response Demo.env (Demo.site "two-sites"))
  ∧ Site_timeseries_list Demo.env (Demo.site "two-sites", Demo.world)
    = (Raise NotImplementedError,
       (Site_set__site_info
          (Some (Site_response Demo.env (Demo.site "two-sites")))
          (Demo.site "two-sites"),
        extend Demo.world
          [Called (Site_request (Demo.site "two-sites")); Assigned A_site_info])).
Proof.
  split.
  - left. vm_compute. lia.
  - apply (Site_multiple_payload_is_kept Demo.env (Demo.site "two-sites") Demo.world).
    + reflexivity.
    + reflexivity.
    + reflexivity.
    + left. vm_compute. lia.
Defined.

(** C1, the retry: after the refusal, [timeseries_list] builds its list
    from the first entry of the refused payload. *)
Example Site_multiple_payload_is_used_on_retry :
  ∃ l st st',
    Site_timeseries_list Demo.env (Demo.site "two-sites", Demo.world)
    = (Raise NotImplementedError, st)
    ∧ Site_timeseries_list Demo.env st = (Return l, st')
    ∧ length l = 1
    ∧ count is_remote (trace st'.2) = 1.
Proof. by eexists _, _, _. Qed.

(** C2, witness: the discharge series has two values; nothing is
    fetched before the first access. *)
Lemma lazy_accessor_idempotent_once_populated_witness :
  getattr Demo.env acc_series (ETimeSeries (Demo.timeseries Demo.discharge), Demo.world)
  = (Return (VSeries [(0%Z, 10%Z); (1%Z, 20%Z)]),
     (ETimeSeries (TimeSeries_fetched Demo.env (Demo.timeseries Demo.discharge)),
      extend Demo.world (fetch_events Demo.env (Demo.timeseries Demo.discharge))))
  ∧ getattr Demo.env acc_series
      (ETimeSeries (TimeSeries_fetched Demo.env (Demo.timeseries Demo.discharge)),
       extend Demo.world (fetch_events Demo.env (Demo.timeseries Demo.discharge)))
    = (Return (VSeries [(0%Z, 10%Z); (1%Z, 20%Z)]),
       (ETimeSeries (TimeSeries_fetched Demo.env (Demo.timeseries Demo.discharge)),
        extend Demo.world (fetch_events Demo.env (Demo.timeseries Demo.discharge))))
  ∧ count is_remote
      (trace (extend Demo.world
                (fetch_events Demo.env (Demo.timeseries Demo.discharge))))
    = count is_remote (trace Demo.world) + 1.
Proof.
  split; [reflexivity|].
  destruct (lazy_accessor_idempotent_once_populated Demo.env acc_series
              (ETimeSeries (Demo.timeseries Demo.discharge)) Demo.world
              _ _ _ eq_refl eq_refl) as [Hsecond Hcalls].
  split; [exact Hsecond|].
  apply Hcalls.
  - discriminate.
  - reflexivity.
  - reflexivity.
Defined.

(** C2, counterexample: the gage-height series has no values; two
    accesses in a row make two remote calls. *)
Lemma two_accesses_two_calls :
  ¬ two_accesses_one_call Demo.env acc_series
      (ETimeSeries (Demo.timeseries Demo.gage_height)) Demo.world.
Proof.
  intros H.
  specialize (H _ _ _ _ _ _ eq_refl eq_refl) as [_ H].
  vm_compute in H. discriminate H.
Qed.

(** C3, witness: a TimeSeries as constructed; its first access to
    [series] makes the one call and assigns both fields. *)
Lemma TimeSeries_pair_assigned_together_witness :
  TimeSeries_reachable Demo.env (Demo.timeseries Demo.gage_height)
  ∧ TimeSeries_series Demo.env (Demo.timeseries Demo.gage_height, Demo.world)
    = (Return [],
       (TimeSeries_fetched Demo.env (Demo.timeseries Demo.gage_height),
        extend Demo.world
          [Called (TimeSeries_request Demo.env (Demo.timeseries Demo.gage_height));
           Assigned A_series; Assigned A_quantity]))
  ∧ TimeSeries_paired Demo.env
      (TimeSeries_fetched Demo.env (Demo.timeseries Demo.gage_height)).
Proof.
  assert (TimeSeries_reachable Demo.env (Demo.timeseries Demo.gage_height))
    as Hreach.
  { apply (reachable_init Demo.env Demo.gage_height 0%Z "" "0" 0%Z 1%Z
             (Site_ref (Demo.site "01234")) Demo.world _ Demo.world).
    reflexivity. }
  split; [exact Hreach|].
  pose proof (TimeSeries_pair_assigned_together Demo.env
                (Demo.timeseries Demo.gage_height) Demo.world Hreach)
    as (_ & _ & _ & Hseries & _).
  split; [reflexivity|].
  exact (proj1 (proj2 (Hseries _ _ _ eq_refl))).
Defined.

(** C3, counterexample: the gage-height series has no values; after an
    access to [series], [_quantity] is populated and [_series] is not. *)
Lemma quantity_populated_without_series :
  ¬ pair_populated_after_access Demo.env (Demo.timeseries Demo.gage_height)
      Demo.world.
Proof.
  intros H. specialize (H _ _ _ eq_refl) as [H _].
  vm_compute in H. discriminate H.
Qed.

(** C4, witness: the cache holds site "01234". *)
Lemma Source_sites_cache_precedence_witness :
  Demo.cached_sites ≠ ∅
  ∧ Source_sites Demo.env_cached (Demo.source true, Demo.world_cached)
    = (Return Demo.cached_sites,
       (Source_set__sites Demo.cached_sites (Demo.source true),
        extend Demo.world_cached
          [Called (cache__get_cached_sites (Source_ref (Demo.source true)));
           Assigned A_sites])).
Proof.
  assert (Demo.cached_sites ≠ ∅) as Hne.
  { intros H. apply (f_equal size) in H. vm_compute in H. discriminate H. }
  split; [exact Hne|].
  apply (Source_sites_cache_precedence Demo.env_cached (Demo.source true)
           Demo.world_cached Demo.the_cache).
  - reflexivity.
  - reflexivity.
  - reflexivity.
  - exact Hne.
Defined.

(** C5, witness: site "01234" has two series. *)
Lemma Site_dataframe_fresh_witness :
  count is_GetSiteInfoObject (trace (Site_dataframe Demo.env (Demo.site "01234", Demo.world)).2.2) = 1
  ∧ count is_GetValuesObject (trace (Site_dataframe Demo.env (Demo.site "01234", Demo.world)).2.2) = 2.
Proof.
  pose proof (Site_dataframe_fresh Demo.env "01234" "Example River" 7%Z "NWISDV"
                (Some 30%Z) (Some (-97)%Z) (Source_ref (Demo.source false)) false
                Demo.world (Demo.site "01234") Demo.world
                [Demo.wml_discharge; Demo.wml_gage_height]
                eq_refl eq_refl eq_refl) as (Hrun & H1 & H2).
  rewrite Hrun. split; [exact H1|exact H2].
Defined.

(** C6, counterexample: constructing a Source calls the suds client
    constructor. *)
Lemma Source_construction_calls_out :
  ¬ @Source_construction_is_silent Demo.Float Demo.Datetime Demo.Quantity
      Demo.CacheState Demo.url false Demo.world.
Proof.
  intros H. specialize (H _ _ eq_refl). discriminate H.
Qed.

(** C7, witness: the cache is empty. *)
Lemma Source_sites_cache_population_witness :
  cache_state (Source_sites Demo.env_cached (Demo.source true, Demo.world)).2.2
  = Source_fetched_sites Demo.env_cached (Demo.source true)
  ∧ size (Source_fetched_sites Demo.env_cached (Demo.source true)) = 1.
Proof.
  rewrite (Source_sites_cache_population Demo.env_cached (Demo.source true)
             Demo.world Demo.the_cache eq_refl eq_refl eq_refl eq_refl).
  split; reflexivity.
Defined.

(** C8, witness *)
Lemma Source_sites_single_descriptor_witness :
  ∃ site : Site,
    (Source_sites Demo.env (Demo.source false, Demo.world)).1
    = Return {[ "01234" := site ]}
    ∧ Site_network site = "NWISDV"
    ∧ Site_source site = Source_ref (Demo.source false).
Proof.
  destruct (Source_sites_single_descriptor Demo.env (Demo.source false) Demo.world
              {| wml_code := "01234"; wml_name := "Example River";
                 wml_id := 7%Z; wml_network := "NWISDV";
                 wml_latitude := 30%Z; wml_longitude := (-97)%Z |}
              eq_refl eq_refl eq_refl eq_refl eq_refl)
    as (site & Hrun & Hnet & _ & Hsrc).
  exists site. rewrite Hrun. split; [reflexivity|]. split; [exact Hnet|exact Hsrc].
Defined.

(** C10, witness: site "bare" has an empty catalog. *)
Lemma empty_result_is_not_memoized_witness :
  (getattr Demo.env acc_timeseries_list (ESite (Demo.site "bare"), Demo.world)).1
  = Return (VTimeseriesList [])
  ∧ ∃ v2 e2 w2 evs,
      getattr Demo.env acc_timeseries_list
        (getattr Demo.env acc_timeseries_list (ESite (Demo.site "bare"), Demo.world)).2
      = (Return v2, (e2, w2))
      ∧ trace w2
        = trace (getattr Demo.env acc_timeseries_list
                   (ESite (Demo.site "bare"), Demo.world)).2.2 ++ evs
      ∧ Assigned A_timeseries_list ∈ evs
      ∧ count is_remote evs = 0.
Proof.
  split; [reflexivity|].
  destruct (empty_result_is_not_memoized Demo.env acc_timeseries_list
              (ESite (Demo.site "bare")) Demo.world _ _ _
              (or_intror (or_introl eq_refl)) eq_refl eq_refl eq_refl)
    as (v2 & e2 & w2 & evs & Hrun & Htrace & Hin & Hcount).
  exists v2, e2, w2, evs. split; [exact Hrun|]. split; [exact Htrace|].
  split; [exact Hin|exact Hcount].
Defined.

(** C10, counterexample: site "bare" has an empty catalog; after a first
    access to [timeseries_list], a second one makes no remote call. *)
Lemma empty_catalog_is_not_fetched_again :
  (getattr Demo.env acc_timeseries_list (ESite (Demo.site "bare"), Demo.world)).1
  = Return (VTimeseriesList [])
  ∧ ¬ access_calls_remote Demo.env acc_timeseries_list
        (getattr Demo.env acc_timeseries_list
           (ESite (Demo.site "bare"), Demo.world)).2.1
        (getattr Demo.env acc_timeseries_list
           (ESite (Demo.site "bare"), Demo.world)).2.2.
Proof.
  split; [reflexivity|].
  intros H. specialize (H _ _ _ eq_refl). vm_compute in H. lia.
Qed.

(** * Further properties of the module *)

(** ** Run equations for the data frame *)

Section MoreRunEquations.
Context {Float Datetime Quantity TimeSeriesResponse CacheState : Type}.
Context (env : @Env Float Datetime Quantity TimeSeriesResponse CacheState).
Implicit Types (t : @TimeSeries Float Datetime Quantity).
Implicit Types (s : @Site Float Datetime Quantity).
Implicit Types (src : @Source Float Datetime Quantity).
Implicit Types (w : @World Float Datetime Quantity CacheState).
Implicit Types (info : @SiteInfoResponse Float Datetime).

(** The generator of [_update_dataframe], on any list of TimeSeries. *)
Lemma columns_run_any pre post : ∀ s w,
  Site__timeseries_list s = pre ++ post →
  comprehension (λ i, on_timeseries i (column env))
    (seq (length pre) (length post)) (s, w)
  = (Return (columns_of env post),
     (Site_set__timeseries_list (pre ++ (TimeSeries_settled env <$> post)) s,
      extend w (concat (settle_events env <$> post)))).
Proof.
  revert pre. induction post as [|t post IH]; intros pre s w Hs.
  - cbn. rewrite app_nil_r in *. rewrite <- Hs.
    by rewrite Site_set__timeseries_list_id, extend_nil.
  - cbn [length seq comprehension]. run.
    unfold on_timeseries at 1. cbn [fst snd]. rewrite Hs.
    rewrite list_lookup_middle by done.
    rewrite column_run, TimeSeries_series_run.
    fold (TimeSeries_settled env t). fold (settle_events env t).
    assert ((if bool_decide (length (TimeSeries__series t) = 0)
             then (Return (TimeSeries_response env t).1,
                   (TimeSeries_fetched env t, extend w (fetch_events env t)))
             else (Return (TimeSeries__series t), (t, w)))
            = (Return (TimeSeries__series (TimeSeries_settled env t)),
               (TimeSeries_settled env t, extend w (settle_events env t)))) as ->.
    { unfold TimeSeries_settled, settle_events. case_bool_decide; [done|].
      by rewrite extend_nil. }
    replace (<[length pre:=TimeSeries_settled env t]> (pre ++ t :: post))
      with ((pre ++ [TimeSeries_settled env t]) ++ post).
    2:{ rewrite <- (Nat.add_0_r (length pre)) at 1.
        rewrite insert_app_r. cbn. by rewrite <- app_assoc. }
    specialize (IH (pre ++ [TimeSeries_settled env t])).
    rewrite length_app in IH. cbn [length] in IH. rewrite Nat.add_1_r in IH.
    rewrite IH by done.
    unfold columns_of. cbn [fmap list_fmap concat]. run.
    rewrite extend_extend. by rewrite <- app_assoc.
Qed.

(** [_update_dataframe], after [self.timeseries_list] has returned. *)
Lemma Site__update_dataframe_run s w :
  Site__update_dataframe env (s, w)
  = let '(r, (s1, w1)) := Site_timeseries_list env (s, w) in
    match r with
    | Raise e => (Raise e, (s1, w1))
    | Return _ =>
        (Return tt,
         (Site_set__dataframe
            (Some {| DataFrame_data :=
                       dict (columns_of env (Site__timeseries_list s1)) |})
            (Site_set__timeseries_list
               (TimeSeries_settled env <$> Site__timeseries_list s1) s1),
          extend w1 (concat (settle_events env <$> Site__timeseries_list s1)
                     ++ [Assigned A_dataframe])))
    end.
Proof.
  unfold Site__update_dataframe. run.
  destruct (Site_timeseries_list env (s, w)) as [[l|e] [s1 w1]] eqn:Hrun; [|done].
  assert (l = Site__timeseries_list s1) as -> by (by eapply Site_timeseries_list_returns).
  rewrite (columns_run_any [] (Site__timeseries_list s1)) by done.
  run. by rewrite extend_extend.
Qed.

(** [dataframe], step by step. *)
Lemma Site_dataframe_run s w :
  Site_dataframe env (s, w)
  = let '(r0, (s0, w0)) :=
      if bool_decide (length (Site__timeseries_list s) = 0)
      then Site__update_site_info env (s, w) else (Return tt, (s, w)) in
    match r0 with
    | Raise e => (Raise e, (s0, w0))
    | Return _ =>
        match truth_dataframe env (Site__dataframe s0) (s0, w0) with
        | (Raise e, _) => (Raise e, (s0, w0))
        | (Return true, _) => (Return (Site__dataframe s0), (s0, w0))
        | (Return false, _) =>
            let '(r1, (s1, w1)) := Site__update_dataframe env (s0, w0) in
            (match r1 with
             | Return _ => Return (Site__dataframe s1)
             | Raise e => Raise e
             end, (s1, w1))
        end
    end.
Proof.
  unfold Site_dataframe. run.
  destruct (if bool_decide (length (Site__timeseries_list s) = 0)
            then Site__update_site_info env (s, w) else (Return (), (s, w)))
    as [[u|e] [s0 w0]] eqn:H0.
  - assert ((if bool_decide (length (Site__timeseries_list s) = 0)
             then Site__update_site_info env
             else λ st : Site * World, (Return (), st)) (s, w)
            = (Return u, (s0, w0))) as -> by (by case_bool_decide).
    cbn [fst snd]. unfold truth_dataframe.
    destruct (Site__dataframe s0) as [df|] eqn:Hdf; run.
    + destruct (DataFrame_bool env df) as [[|]|e]; cbn [negb]; try done.
      * cbn [fst]. by rewrite Hdf.
      * destruct (Site__update_dataframe env (s0, w0)) as [[u'|e'] [s1 w1]]; reflexivity.
    + cbn [negb].
      destruct (Site__update_dataframe env (s0, w0)) as [[u'|e'] [s1 w1]]; reflexivity.
  - assert ((if bool_decide (length (Site__timeseries_list s) = 0)
             then Site__update_site_info env
             else λ st : Site * World, (Return (), st)) (s, w)
            = (Raise e, (s0, w0))) as -> by (by case_bool_decide).
    done.
Qed.

End MoreRunEquations.

(** ** What every method of a Site keeps *)

Section Steps.
Context {Float Datetime Quantity TimeSeriesResponse CacheState : Type}.
Context (env : @Env Float Datetime Quantity TimeSeriesResponse CacheState).
Implicit Types (t : @TimeSeries Float Datetime Quantity).
Implicit Types (s : @Site Float Datetime Quantity).
Implicit Types (src : @Source Float Datetime Quantity).
Implicit Types (w : @World Float Datetime Quantity CacheState).
Implicit Types (info : @SiteInfoResponse Float Datetime).
Implicit Types (st : @Site Float Datetime Quantity
                     * @World Float Datetime Quantity CacheState).

Lemma Site_step_refl st : Site_step env st st.
Proof.
  split; [done|]. exists []. split; [by rewrite app_nil_r|done].
Qed.

Lemma Site_step_trans st1 st2 st3 :
  Site_step env st1 st2 → Site_step env st2 st3 → Site_step env st1 st3.
Proof.
  intros [Hid1 (evs1 & Ht1 & Hc1)] [Hid2 (evs2 & Ht2 & Hc2)].
  split; [congruence|]. exists (evs1 ++ evs2).
  split; [by rewrite Ht2, Ht1, app_assoc|].
  intros Hoff. destruct (Hc1 Hoff) as [Hs1 Hn1].
  assert (Site__use_cache st2.1 = Site__use_cache st1.1) as Huse
    by (unfold Site_identity in Hid1; congruence).
  rewrite Huse in Hc2. destruct (Hc2 Hoff) as [Hs2 Hn2].
  split; [congruence|]. rewrite count_app. lia.
Qed.

(** A step that only extends the trace, by nothing of the cache. *)
Lemma Site_step_extend s s' w evs :
  Site_identity s' = Site_identity s →
  count is_cache_call evs = 0 →
  Site_step env (s, w) (s', extend w evs).
Proof. intros Hid Hn. split; [done|]. by exists evs. Qed.

Lemma count_settle_events p (l : list (@TimeSeries Float Datetime Quantity)) :
  p (Assigned A_series) = false → p (Assigned A_quantity) = false →
  (∀ t, p (Called (TimeSeries_request env t)) = false) →
  count p (concat (settle_events env <$> l)) = 0.
Proof.
  intros H1 H2 H3. induction l as [|t l IH]; [done|].
  cbn [fmap list_fmap concat]. rewrite count_app.
  fold (fmap (M:=list) (settle_events env) l). rewrite IH.
  unfold settle_events, fetch_events. case_bool_decide; [|done].
  unfold count. cbn. by rewrite H3, H1, H2.
Qed.

Lemma Site__update_site_info_step s w r st' :
  Site__update_site_info env (s, w) = (r, st') → Site_step env (s, w) st'.
Proof.
  rewrite Site__update_site_info_run. intros [= _ <-].
  by apply Site_step_extend.
Qed.

Lemma Site_site_info_step s w r st' :
  Site_site_info env (s, w) = (r, st') → Site_step env (s, w) st'.
Proof.
  rewrite Site_site_info_run. destruct (Site__site_info s).
  - intros [= _ <-]. apply Site_step_refl.
  - intros [= _ <-]. by apply Site_step_extend.
Qed.

(** The cache write, as a step. *)
Lemma Site_write_step s s' w evs :
  Site_identity s' = Site_identity s →
  count is_cache_call evs = 0 →
  Site_step env (s, w) (s', Site_write env s' (extend w evs)).
Proof.
  intros Hid Hn. split; [done|].
  assert (Site__use_cache s' = Site__use_cache s) as Huse
    by (unfold Site_identity in Hid; congruence).
  unfold Site_write. rewrite Huse. cbn [fst snd].
  destruct (cache_enabled env (Site__use_cache s)).
  - eexists. split; [|done]. cbn. by rewrite <- app_assoc.
  - by exists evs.
Qed.

Lemma count_Site_lookup_off s :
  cache_enabled env (Site__use_cache s) = None → Site_lookup env s = [].
Proof. unfold Site_lookup. by intros ->. Qed.

Lemma Site__update_timeseries_list_step s w r st' :
  Site__update_timeseries_list env (s, w) = (r, st') → Site_step env (s, w) st'.
Proof.
  destruct (cache_miss env (ESite s) w) eqn:Hmiss.
  - rewrite Site__update_timeseries_list_miss by done. cbn zeta.
    assert (∀ s' evs, Site_identity s' = Site_identity s →
              count is_cache_call evs = 0 →
              Site_step env (s, w) (s', extend (extend w (Site_lookup env s)) evs))
      as Hplain.
    { intros s' evs Hid Hn. split; [done|]. exists (Site_lookup env s ++ evs).
      split; [cbn; by rewrite app_assoc|]. cbn [fst]. intros Hoff.
      split; [done|]. by rewrite (count_Site_lookup_off _ Hoff). }
    assert (∀ s' evs, Site_identity s' = Site_identity s →
              count is_cache_call evs = 0 →
              Site_step env (s, w)
                (s', Site_write env s' (extend (extend w (Site_lookup env s)) evs)))
      as Hwrite.
    { intros s' evs Hid Hn.
      eapply Site_step_trans; [apply (Hplain s [])|]; [done|done|].
      rewrite extend_nil. by apply Site_write_step. }
    destruct (Site__site_info s) as [info|].
    + destruct (catalog_series info).
      * intros [= _ <-]. by apply (Hwrite _ [Assigned A_timeseries_list]).
      * intros [= _ <-]. rewrite <- (extend_nil (extend w _)). by apply Hplain.
    + destruct (shape_check (Site_response env s)).
      * destruct (catalog_series (Site_response env s)).
        -- intros [= _ <-]. rewrite extend_extend.
           by apply (Hwrite _ [Called (Site_request s); Assigned A_site_info;
                               Assigned A_timeseries_list]).
        -- intros [= _ <-]. by apply Hplain.
      * intros [= _ <-]. by apply Hplain.
  - apply cache_miss_false_site in Hmiss as (c & Hc & Hhit).
    rewrite (Site__update_timeseries_list_hit _ _ _ c) by done.
    intros [= _ <-]. split; [done|]. eexists. split; [done|].
    cbn [fst]. by rewrite Hc.
Qed.

Lemma Site_timeseries_list_step s w r st' :
  Site_timeseries_list env (s, w) = (r, st') → Site_step env (s, w) st'.
Proof.
  rewrite Site_timeseries_list_run. case_bool_decide.
  - destruct (Site__update_timeseries_list env (s, w)) as [[u|e] st1] eqn:Hrun;
      intros [= _ <-]; by eapply Site__update_timeseries_list_step.
  - intros [= _ <-]. apply Site_step_refl.
Qed.

Lemma Site__update_dataframe_step s w r st' :
  Site__update_dataframe env (s, w) = (r, st') → Site_step env (s, w) st'.
Proof.
  rewrite Site__update_dataframe_run.
  destruct (Site_timeseries_list env (s, w)) as [[l|e] [s1 w1]] eqn:Hrun.
  - intros [= _ <-]. eapply Site_step_trans.
    + by eapply Site_timeseries_list_step.
    + apply Site_step_extend; [done|]. rewrite count_app.
      by rewrite count_settle_events.
  - intros [= _ <-]. by eapply Site_timeseries_list_step.
Qed.

Lemma Site_dataframe_step s w r st' :
  Site_dataframe env (s, w) = (r, st') → Site_step env (s, w) st'.
Proof.
  rewrite Site_dataframe_run.
  destruct (if bool_decide (length (Site__timeseries_list s) = 0)
            then Site__update_site_info env (s, w) else (Return (), (s, w)))
    as [[u|e] [s0 w0]] eqn:H0.
  - assert (Site_step env (s, w) (s0, w0)) as Hstep0.
    { case_bool_decide.
      - by eapply Site__update_site_info_step.
      - injection H0 as _ <- <-. apply Site_step_refl. }
    destruct (truth_dataframe env (Site__dataframe s0) (s0, w0)) as [[[|]|e] ?].
    + by intros [= _ <-].
    + destruct (Site__update_dataframe env (s0, w0)) as [[u'|e] [s1 w1]] eqn:H1;
        intros [= _ <-]; (eapply Site_step_trans; [exact Hstep0|]);
        by eapply Site__update_dataframe_step.
    + by intros [= _ <-].
  - intros [= _ <-]. case_bool_decide; [|done].
    by eapply Site__update_site_info_step.
Qed.

End Steps.

(** ** Python's [dict(pairs)] *)

Section Dict.
Context {V : Type}.
Implicit Types (l : list (string * V)) (m : gmap string V).

Lemma foldl_insert_lookup_notin l : ∀ m k,
  k ∉ l.*1 → foldl (λ m kv, <[kv.1 := kv.2]> m) m l !! k = m !! k.
Proof.
  induction l as [|[k' v'] l IH]; intros m k Hk; [done|].
  cbn in *. apply not_elem_of_cons in Hk as [Hne Hk].
  rewrite IH by done. by rewrite lookup_insert_ne.
Qed.

Lemma foldl_insert_dom l : ∀ m,
  dom (foldl (λ m kv, <[kv.1 := kv.2]> m) m l) = dom m ∪ list_to_set l.*1.
Proof.
  induction l as [|[k v] l IH]; intros m; cbn.
  - set_solver.
  - rewrite IH, dom_insert_L. set_solver.
Qed.

Lemma foldl_insert_elem l : ∀ m k v,
  foldl (λ m kv, <[kv.1 := kv.2]> m) m l !! k = Some v →
  (k, v) ∈ l ∨ m !! k = Some v.
Proof.
  induction l as [|[k' v'] l IH]; intros m k v H; [by right|].
  cbn in H. apply IH in H as [H|H].
  - left. by right.
  - destruct (decide (k' = k)) as [->|Hne].
    + rewrite lookup_insert_eq in H. injection H as ->. left. by left.
    + rewrite lookup_insert_ne in H by done. by right.
Qed.

(** The keys of [dict(pairs)] are the keys of the pairs. *)
Lemma dom_dict l : dom (dict l) = list_to_set l.*1.
Proof. unfold dict. rewrite foldl_insert_dom. set_solver. Qed.

(** For a key that occurs more than once, the last pair counts. *)
Lemma dict_lookup_last l1 l2 k v :
  k ∉ l2.*1 → dict (l1 ++ (k, v) :: l2) !! k = Some v.
Proof.
  intros Hk. unfold dict. rewrite foldl_app. cbn.
  rewrite foldl_insert_lookup_notin by done. by rewrite lookup_insert_eq.
Qed.

(** Every entry of [dict(pairs)] is one of the pairs. *)
Lemma dict_lookup_elem l k v : dict l !! k = Some v → (k, v) ∈ l.
Proof. intros H. by apply foldl_insert_elem in H as [H|H]. Qed.

Lemma size_dict l : (size (dict l) ≤ length l)%nat.
Proof.
  rewrite <- size_dom, dom_dict.
  induction l as [|[k v] l IH]; cbn.
  - by rewrite size_empty.
  - rewrite size_union_alt, size_singleton.
    assert (size (list_to_set l.*1 ∖ {[k]} : gset string)
            ≤ size (list_to_set l.*1 : gset string))%nat
      by (apply subseteq_size; set_solver).
    lia.
Qed.

End Dict.

(** ** The cache and the shape of the payload *)

Section CacheAndShape.
Context {Float Datetime Quantity TimeSeriesResponse CacheState : Type}.
Context (env : @Env Float Datetime Quantity TimeSeriesResponse CacheState).
Implicit Types (t : @TimeSeries Float Datetime Quantity).
Implicit Types (s : @Site Float Datetime Quantity).
Implicit Types (src : @Source Float Datetime Quantity).
Implicit Types (w : @World Float Datetime Quantity CacheState).
Implicit Types (info : @SiteInfoResponse Float Datetime).

(** X1.  A Site with caching enabled, a cache module present and no
    list yet: when the cache returns a non-empty list, [timeseries_list]
    returns exactly that list after the cache lookup and the assignment
    of [_timeseries_list], and nothing else: no remote call, no cache
    write, and [_site_info] is left as it was. *)
Theorem Site_timeseries_list_cache_precedence s w c :
  Site__use_cache s = true →
  cache env = Some c →
  Site__timeseries_list s = [] →
  _get_cached_timeseries_list c s (cache_state w) ≠ [] →
  let cached := _get_cached_timeseries_list c s (cache_state w) in
  let evs := [Called (cache__get_cached_timeseries_list (Site_ref s));
              Assigned A_timeseries_list] in
  Site_timeseries_list env (s, w)
    = (Return cached, (Site_set__timeseries_list cached s, extend w evs))
  ∧ count is_remote evs = 0.
Proof.
  intros Huse Hcache Hl Hhit. cbn zeta. split; [|done].
  assert (cache_enabled env (Site__use_cache s) = Some c) as Hc
    by (unfold cache_enabled; by rewrite Huse).
  rewrite Site_timeseries_list_run, Hl. cbn [length].
  rewrite bool_decide_eq_true_2 by done.
  rewrite (Site__update_timeseries_list_hit env s w c Hc).
  - unfold Site_lookup. by rewrite Hc.
  - by rewrite length_zero_iff_nil.
Qed.

(** X2.  A Site with caching enabled, a cache module present and
    nothing fetched yet, whose payload has the supported shape: when the
    cache returns an empty list, [timeseries_list] looks the cache up,
    fetches the site detail, assigns [_site_info] and
    [_timeseries_list], and then hands the Site, already holding the new
    list, to the cache. *)
Theorem Site_timeseries_list_cache_population s w c series_list :
  Site__use_cache s = true →
  cache env = Some c →
  Site__site_info s = None →
  Site__timeseries_list s = [] →
  _get_cached_timeseries_list c s (cache_state w) = [] →
  single (Site_response env s) series_list →
  let s' := Site_set__timeseries_list (Site_catalog s series_list)
              (Site_set__site_info (Some (Site_response env s)) s) in
  let evs := [Called (cache__get_cached_timeseries_list (Site_ref s));
              Called (Site_request s);
              Assigned A_site_info;
              Assigned A_timeseries_list;
              Called (cache__update_cache_timeseries s')] in
  Site_timeseries_list env (s, w)
  = (Return (Site_catalog s series_list),
     (s', store (_update_cache_timeseries c s') (extend w evs))).
Proof.
  intros Huse Hcache Hinfo Hl Hmiss Hsingle. cbn zeta.
  assert (cache_enabled env (Site__use_cache s) = Some c) as Hc
    by (unfold cache_enabled; by rewrite Huse).
  rewrite Site_timeseries_list_run, Hl. cbn [length].
  rewrite bool_decide_eq_true_2 by done.
  rewrite Site__update_timeseries_list_miss.
  2:{ cbn [cache_miss]. rewrite Hc, Hmiss. by apply bool_decide_eq_true_2. }
  cbn zeta. rewrite Hinfo, (shape_check_single _ _ Hsingle).
  rewrite (catalog_series_single _ _ Hsingle).
  unfold Site_write, Site_lookup.
  cbn [Site_set__timeseries_list Site_set__site_info Site__use_cache
       Site__timeseries_list fst snd].
  rewrite Hc. by rewrite !extend_extend.
Qed.

(** X3.  A Site with nothing fetched and no cache in play, whose
    payload has no site entry: [timeseries_list] and [site_info] raise
    [IndexError] after the payload has been stored; from then on
    [timeseries_list] raises [IndexError] again without any call. *)
Theorem Site_payload_without_site_entry s w :
  Site__site_info s = None →
  Site__timeseries_list s = [] →
  cache_off env (ESite s) = true →
  SiteInfoResponse_site (Site_response env s) = [] →
  let fetch := [Called (Site_request s); Assigned A_site_info] in
  let s' := Site_set__site_info (Some (Site_response env s)) s in
  Site_timeseries_list env (s, w) = (Raise IndexError, (s', extend w fetch))
  ∧ Site_site_info env (s, w) = (Raise IndexError, (s', extend w fetch))
  ∧ ∀ w', Site_timeseries_list env (s', w') = (Raise IndexError, (s', w')).
Proof.
  intros Hinfo Hl Hoff Hnone. cbn zeta.
  assert (shape_check (Site_response env s) = Raise IndexError) as Hcheck
    by (unfold shape_check; by rewrite Hnone).
  assert (cache_enabled env (Site__use_cache s) = None) as Hc.
  { cbn [cache_off] in Hoff. by destruct (cache_enabled env (Site__use_cache s)). }
  split; [|split].
  - rewrite Site_timeseries_list_run, Hl. cbn [length].
    rewrite bool_decide_eq_true_2 by done.
    rewrite Site__update_timeseries_list_miss by (by apply cache_off_miss).
    cbn zeta. unfold Site_lookup. rewrite Hinfo, Hcheck, Hc. by rewrite extend_nil.
  - by rewrite Site_site_info_run, Hinfo, Hcheck.
  - intros w'. rewrite Site_timeseries_list_run. cbn [Site_set__site_info
      Site__timeseries_list]. rewrite Hl. cbn [length].
    rewrite bool_decide_eq_true_2 by done.
    rewrite Site__update_timeseries_list_miss by (by apply cache_off_miss).
    cbn zeta. cbn [Site_set__site_info Site__site_info].
    unfold catalog_series. rewrite Hnone. cbn.
    unfold Site_lookup. cbn [Site__use_cache Site_set__site_info].
    rewrite Hc. by rewrite extend_nil.
Qed.

(** X4.  A Site with nothing fetched and no cache in play, whose
    payload has one site entry and no series catalog: the shape check
    lets it through, so [site_info] returns it; [timeseries_list] raises
    [IndexError] and leaves the list unset. *)
Theorem Site_payload_without_series_catalog s w :
  Site__site_info s = None →
  Site__timeseries_list s = [] →
  cache_off env (ESite s) = true →
  SiteInfoResponse_site (Site_response env s) = [ {| seriesCatalog := [] |} ] →
  let fetch := [Called (Site_request s); Assigned A_site_info] in
  let s' := Site_set__site_info (Some (Site_response env s)) s in
  Site_site_info env (s, w)
    = (Return (Some (Site_response env s)), (s', extend w fetch))
  ∧ Site_timeseries_list env (s, w) = (Raise IndexError, (s', extend w fetch))
  ∧ Site__timeseries_list s' = [].
Proof.
  intros Hinfo Hl Hoff Hone. cbn zeta.
  assert (shape_check (Site_response env s) = Return tt) as Hcheck
    by (unfold shape_check; by rewrite Hone).
  assert (cache_enabled env (Site__use_cache s) = None) as Hc.
  { cbn [cache_off] in Hoff. by destruct (cache_enabled env (Site__use_cache s)). }
  split; [|split].
  - by rewrite Site_site_info_run, Hinfo, Hcheck.
  - rewrite Site_timeseries_list_run, Hl. cbn [length].
    rewrite bool_decide_eq_true_2 by done.
    rewrite Site__update_timeseries_list_miss by (by apply cache_off_miss).
    cbn zeta. unfold Site_lookup. rewrite Hinfo, Hcheck, Hc.
    unfold catalog_series. rewrite Hone. cbn. by rewrite extend_nil.
  - done.
Qed.

(** X5.  On a Site whose list is empty, [dataframe] asks the remote
    service for the site detail and assigns [_site_info] before anything
    else, whatever [_site_info] already holds and however the access
    ends. *)
Theorem Site_dataframe_fetches_site_detail_again s w r st' :
  Site__timeseries_list s = [] →
  Site_dataframe env (s, w) = (r, st') →
  ∃ evs, trace st'.2
         = trace w ++ Called (Site_request s) :: Assigned A_site_info :: evs.
Proof.
  intros Hl. rewrite Site_dataframe_run, Hl. cbn [length].
  rewrite bool_decide_eq_true_2 by done. rewrite Site__update_site_info_run.
  assert (∀ st'', Site_step env
            (Site_set__site_info (Some (Site_response env s)) s,
             extend w [Called (Site_request s); Assigned A_site_info]) st'' →
          ∃ evs, trace st''.2
                 = trace w ++ Called (Site_request s) :: Assigned A_site_info :: evs)
    as Hrest.
  { intros st'' [_ (evs & Ht & _)]. exists evs. rewrite Ht. cbn.
    by rewrite <- app_assoc. }
  destruct (shape_check (Site_response env s)).
  - destruct (truth_dataframe env _ _) as [[[|]|e] ?].
    + intros [= _ <-]. apply Hrest, Site_step_refl.
    + destruct (Site__update_dataframe env _) as [[u'|e] [s1 w1]] eqn:H1;
        intros [= _ <-]; apply Hrest; by eapply Site__update_dataframe_step.
    + intros [= _ <-]. apply Hrest, Site_step_refl.
  - intros [= _ <-]. apply Hrest, Site_step_refl.
Qed.

(** X6.  On a Site whose list is empty and whose payload has the
    refused shape, [dataframe] raises [NotImplementedError] on every
    access, each after a fresh get-site-detail call; it never builds a
    frame from the refused payload. *)
Theorem Site_dataframe_refuses_every_time s w :
  Site__timeseries_list s = [] →
  multiple (Site_response env s) →
  let fetch := [Called (Site_request s); Assigned A_site_info] in
  let s' := Site_set__site_info (Some (Site_response env s)) s in
  Site_dataframe env (s, w) = (Raise NotImplementedError, (s', extend w fetch))
  ∧ (∀ w', Site_dataframe env (s', w')
           = (Raise NotImplementedError, (s', extend w' fetch)))
  ∧ Site__dataframe s' = Site__dataframe s.
Proof.
  intros Hl Hmult. cbn zeta.
  pose proof (shape_check_multiple _ Hmult) as Hcheck.
  split; [|split; [|done]].
  - rewrite Site_dataframe_run, Hl. cbn [length].
    rewrite bool_decide_eq_true_2 by done.
    by rewrite Site__update_site_info_run, Hcheck.
  - intros w'. rewrite Site_dataframe_run.
    cbn [Site_set__site_info Site__timeseries_list]. rewrite Hl. cbn [length].
    rewrite bool_decide_eq_true_2 by done.
    rewrite Site__update_site_info_run.
    change (Site_response env (Site_set__site_info _ s)) with (Site_response env s).
    by rewrite Hcheck.
Qed.

(** X7.  On a Site with nothing fetched, no cache in play and a payload
    of the supported shape, [variables] returns the variables of the
    catalog, in the order of the catalog, after the one get-site-detail
    call; it fetches no values. *)
Theorem Site_variables_of_the_catalog s w series_list :
  Site__site_info s = None →
  Site__timeseries_list s = [] →
  cache_off env (ESite s) = true →
  single (Site_response env s) series_list →
  let evs := [Called (Site_request s); Assigned A_site_info;
              Assigned A_timeseries_list] in
  Site_variables env (s, w)
    = (Return (wml_variable <$> series_list),
       (Site_set__timeseries_list (Site_catalog s series_list)
          (Site_set__site_info (Some (Site_response env s)) s),
        extend w evs))
  ∧ count is_GetValuesObject evs = 0.
Proof.
  intros Hinfo Hl Hoff Hsingle. cbn zeta. split; [|done].
  assert (cache_enabled env (Site__use_cache s) = None) as Hc.
  { cbn [cache_off] in Hoff. by destruct (cache_enabled env (Site__use_cache s)). }
  unfold Site_variables. run.
  rewrite Site_timeseries_list_run, Hl. cbn [length].
  rewrite bool_decide_eq_true_2 by done.
  rewrite Site__update_timeseries_list_miss by (by apply cache_off_miss).
  cbn zeta. rewrite Hinfo, (shape_check_single _ _ Hsingle).
  rewrite (catalog_series_single _ _ Hsingle).
  unfold Site_write, Site_lookup.
  cbn [Site_set__timeseries_list Site_set__site_info Site__use_cache
       Site__timeseries_list fst snd].
  rewrite Hc, extend_nil, !extend_extend. cbn [app].
  unfold Site_catalog. rewrite <- list_fmap_compose. done.
Qed.

End CacheAndShape.

(** ** Data frames, sites and series *)

Section FramesAndSeries.
Context {Float Datetime Quantity TimeSeriesResponse CacheState : Type}.
Context (env : @Env Float Datetime Quantity TimeSeriesResponse CacheState).
Implicit Types (t : @TimeSeries Float Datetime Quantity).
Implicit Types (s : @Site Float Datetime Quantity).
Implicit Types (src : @Source Float Datetime Quantity).
Implicit Types (w : @World Float Datetime Quantity CacheState).
Implicit Types (info : @SiteInfoResponse Float Datetime).

(** X8.  The data frame a fresh Site builds has one column for each
    variable code of the catalog, and no other: series that share a code
    share a column, so there are at most as many columns as series. *)
Theorem Site_dataframe_columns_are_the_variable_codes s w series_list :
  Site__timeseries_list s = [] →
  Site__dataframe s = None →
  cache_off env (ESite s) = true →
  single (Site_response env s) series_list →
  ∃ frame,
    (Site_dataframe env (s, w)).1 = Return (Some frame)
    ∧ dom (DataFrame_data frame)
      = list_to_set ((λ d, Variable_code (wml_variable d)) <$> series_list)
    ∧ (size (DataFrame_data frame) ≤ length series_list)%nat.
Proof.
  intros Hl Hd Hoff Hsingle.
  rewrite (Site_dataframe_unpopulated env s w series_list) by done.
  eexists. split; [done|]. cbn [DataFrame_data]. split.
  - rewrite dom_dict. unfold Site_catalog.
    by rewrite <- !list_fmap_compose.
  - etrans; [apply size_dict|]. unfold Site_catalog. by rewrite !length_fmap.
Qed.

(** X9.  The dict that [_update_dataframe] hands to [pandas.DataFrame]
    maps a variable code to the series of the last TimeSeries of the list
    with that code: a later pair replaces an earlier one under the same
    key.  For a fresh Site that series is the one fetched for that
    TimeSeries. *)
Theorem Site_dataframe_last_series_wins s w series_list before t after :
  Site__timeseries_list s = [] →
  Site__dataframe s = None →
  cache_off env (ESite s) = true →
  single (Site_response env s) series_list →
  Site_catalog s series_list = before ++ t :: after →
  Variable_code (TimeSeries_variable t)
    ∉ (λ t', Variable_code (TimeSeries_variable t')) <$> after →
  ∃ frame,
    (Site_dataframe env (s, w)).1 = Return (Some frame)
    ∧ DataFrame_data frame !! Variable_code (TimeSeries_variable t)
      = Some (TimeSeries_response env t).1.
Proof.
  intros Hl Hd Hoff Hsingle Hsplit Hlast.
  rewrite (Site_dataframe_unpopulated env s w series_list) by done.
  eexists. split; [done|]. cbn [DataFrame_data].
  rewrite Hsplit, fmap_app, fmap_cons. apply dict_lookup_last.
  by rewrite <- list_fmap_compose.
Qed.

(** X10.  The mapping [sites] builds when it fetches: every key is the
    code of the Site stored under it, every stored Site is one of the
    fetched Sites, the keys are exactly the codes of the fetched Sites,
    and there are at most as many entries as fetched Sites. *)
Theorem Source_sites_keyed_by_code src w :
  Source__sites src = ∅ →
  cache_miss env (ESource src) w = true →
  ∃ m,
    (Source_sites env (src, w)).1 = Return m
    ∧ Source__sites (Source_sites env (src, w)).2.1 = m
    ∧ (∀ k site, m !! k = Some site →
         Site_code site = k ∧ site ∈ Source_site_list env src)
    ∧ dom m = list_to_set (Site_code <$> Source_site_list env src)
    ∧ (size m ≤ length (Source_site_list env src))%nat.
Proof.
  intros Hempty Hmiss.
  rewrite Source_sites_run, Hempty, map_size_empty.
  rewrite bool_decide_eq_true_2 by done.
  rewrite Source__update_sites_miss by done. cbn zeta. cbn [fst snd Source__sites
    Source_set__sites].
  exists (Source_fetched_sites env src). split; [done|]. split; [done|].
  unfold Source_fetched_sites. split; [|split].
  - intros k site Hk. apply dict_lookup_elem in Hk.
    apply list_elem_of_fmap in Hk as (site' & [= -> ->] & Hin). done.
  - rewrite dom_dict. by rewrite <- list_fmap_compose.
  - etrans; [apply size_dict|]. by rewrite length_fmap.
Qed.

(** X11.  On a TimeSeries whose series is empty, and whose get-values
    exchange yields a true quantity: [series] and then [quantity] make
    one remote call between them; [quantity] returns the quantity that
    came with the series. *)
Theorem TimeSeries_series_then_quantity t w :
  TimeSeries__series t = [] →
  Quantity_bool env (TimeSeries_response env t).2 = true →
  TimeSeries_quantity env (TimeSeries_series env (t, w)).2
  = (Return (Some (TimeSeries_response env t).2),
     (TimeSeries_fetched env t, extend w (fetch_events env t))).
Proof.
  intros Hs Hq. rewrite TimeSeries_series_run, Hs. cbn [length].
  rewrite bool_decide_eq_true_2 by done. cbn [snd].
  rewrite TimeSeries_quantity_run. cbn [TimeSeries_fetched TimeSeries__quantity
    TimeSeries_set__quantity truth_quantity]. by rewrite Hq.
Qed.

(** X12.  On a TimeSeries whose quantity is unset or false, and whose
    get-values exchange yields a series that is not empty: [quantity]
    and then [series] make one remote call between them; [series]
    returns the series that came with the quantity. *)
Theorem TimeSeries_quantity_then_series t w :
  truth_quantity env (TimeSeries__quantity t) = false →
  (TimeSeries_response env t).1 ≠ [] →
  TimeSeries_series env (TimeSeries_quantity env (t, w)).2
  = (Return (TimeSeries_response env t).1,
     (TimeSeries_fetched env t, extend w (fetch_events env t))).
Proof.
  intros Hq Hs. rewrite TimeSeries_quantity_run, Hq. cbn [snd].
  rewrite TimeSeries_series_run. cbn [TimeSeries_fetched TimeSeries__series
    TimeSeries_set__quantity TimeSeries_set__series].
  rewrite bool_decide_eq_false_2; [done|]. by rewrite length_zero_iff_nil.
Qed.

(** X13.  When the quantity that get-values yields is false, it is never
    memoized: every access to [quantity] makes the remote call again and
    assigns both fields again, also when [_series] is populated. *)
Theorem TimeSeries_false_quantity_is_fetched_again t w :
  TimeSeries_paired env t →
  Quantity_bool env (TimeSeries_response env t).2 = false →
  TimeSeries_quantity env (t, w)
    = (Return (Some (TimeSeries_response env t).2),
       (TimeSeries_fetched env t, extend w (fetch_events env t)))
  ∧ TimeSeries_paired env (TimeSeries_fetched env t)
  ∧ TimeSeries_response env (TimeSeries_fetched env t) = TimeSeries_response env t
  ∧ count is_remote (fetch_events env t) = 1.
Proof.
  intros [_ Hq] Hfalse. rewrite TimeSeries_quantity_run, Hq.
  cbn [truth_quantity]. rewrite Hfalse. repeat split.
Qed.

(** X16.  The truth test of the stored frame is part of the access: once
    a fresh Site has built its frame from a catalog that is not empty, if
    that test raises, the next access to [dataframe] raises the same
    exception and changes nothing. *)
Theorem Site_dataframe_truth_test_raises s w series_list e :
  Site__timeseries_list s = [] →
  Site__dataframe s = None →
  cache_off env (ESite s) = true →
  single (Site_response env s) series_list →
  series_list ≠ [] →
  (∀ df, DataFrame_bool env df = Raise e) →
  Site_dataframe env (Site_dataframe env (s, w)).2
  = (Raise e, (Site_dataframe env (s, w)).2).
Proof.
  intros Hl Hd Hoff Hsingle Hne Hraise.
  rewrite (Site_dataframe_unpopulated env s w series_list) by done. cbn [snd].
  rewrite Site_dataframe_run.
  cbn [Site_set__dataframe Site_set__timeseries_list Site__timeseries_list].
  rewrite bool_decide_eq_false_2.
  - cbn [Site__dataframe truth_dataframe Site_set__dataframe of_result]. by rewrite Hraise.
  - unfold Site_catalog. rewrite !length_fmap. by destruct series_list.
Qed.

Lemma count_remote_settle_events (l : list (@TimeSeries Float Datetime Quantity)) :
  count is_remote (concat (settle_events env <$> l))
  = length (List.filter
              (λ t, bool_decide (length (TimeSeries__series t) = 0)) l).
Proof.
  induction l as [|t l IH]; [done|].
  cbn [fmap list_fmap concat List.filter]. rewrite count_app.
  fold (fmap (M:=list) (settle_events env) l). rewrite IH.
  unfold settle_events.
  by destruct (bool_decide (length (TimeSeries__series t) = 0)).
Qed.

(** X17.  On a Site that has its list but no frame yet, [dataframe]
    makes no get-site-detail call and fetches only the series that are
    still empty, in the order of the list; the others go into the frame
    as they are. *)
Theorem Site_dataframe_fetches_only_empty_series s w :
  Site__timeseries_list s ≠ [] →
  Site__dataframe s = None →
  let frame :=
    Some {| DataFrame_data := dict (columns_of env (Site__timeseries_list s)) |} in
  let evs := concat (settle_events env <$> Site__timeseries_list s)
             ++ [Assigned A_dataframe] in
  Site_dataframe env (s, w)
    = (Return frame,
       (Site_set__dataframe frame
          (Site_set__timeseries_list
             (TimeSeries_settled env <$> Site__timeseries_list s) s),
        extend w evs))
  ∧ count is_remote evs
    = length (List.filter
                (λ t, bool_decide (length (TimeSeries__series t) = 0))
                (Site__timeseries_list s)).
Proof.
  intros Hl Hd. cbn zeta.
  assert (length (Site__timeseries_list s) ≠ 0) as Hlen
    by (by rewrite length_zero_iff_nil).
  split.
  - rewrite Site_dataframe_run. rewrite bool_decide_eq_false_2 by done.
    rewrite Hd. cbn [truth_dataframe]. run.
    rewrite Site__update_dataframe_run, Site_timeseries_list_run.
    rewrite bool_decide_eq_false_2 by done. done.
  - rewrite count_app, count_remote_settle_events. cbn. lia.
Qed.

(** X18.  A Site gives back the coordinates it was constructed with:
    [latitude] the latitude and [longitude] the longitude. *)
Theorem Site_coordinates_round_trip
    code name id network latitude longitude source use_cache
    (w : @World Float Datetime Quantity CacheState) s w' :
  Site___init__ code name id network latitude longitude source use_cache w
    = (Return s, w') →
  latitude = Some (Site_latitude s) ∧ longitude = Some (Site_longitude s).
Proof.
  unfold Site___init__, shapely_geometry_Point.
  destruct longitude as [longitude|], latitude as [latitude|]; run;
    try discriminate.
  by intros [= <- _].
Qed.

End FramesAndSeries.

(** ** Every lazy attribute *)

Section Accessors.
Context {Float Datetime Quantity TimeSeriesResponse CacheState : Type}.
Context (env : @Env Float Datetime Quantity TimeSeriesResponse CacheState).
Implicit Types (t : @TimeSeries Float Datetime Quantity).
Implicit Types (s : @Site Float Datetime Quantity).
Implicit Types (src : @Source Float Datetime Quantity).
Implicit Types (w : @World Float Datetime Quantity CacheState).
Implicit Types (info : @SiteInfoResponse Float Datetime).

(** What an access does to the object and the world, for each class. *)
Lemma Source_sites_step src w r src' w' :
  Source_sites env (src, w) = (r, (src', w')) →
  Source_identity src' = Source_identity src
  ∧ ∃ evs, trace w' = trace w ++ evs
           ∧ (cache_enabled env (Source__use_cache src) = None →
              cache_state w' = cache_state w ∧ count is_cache_call evs = 0).
Proof.
  rewrite Source_sites_run. case_bool_decide.
  - destruct (cache_miss env (ESource src) w) eqn:Hmiss.
    + rewrite Source__update_sites_miss by done. cbn zeta.
      intros [= _ <- <-]. split; [done|].
      unfold Source_write, Source_lookup. cbn [Source_set__sites Source__use_cache].
      destruct (cache_enabled env (Source__use_cache src)).
      * eexists. split; [|done]. cbn. by rewrite <- !app_assoc.
      * eexists. split; [done|]. done.
    + cbn [cache_miss] in Hmiss.
      destruct (cache_enabled env (Source__use_cache src)) as [c|] eqn:Hc; [|done].
      apply bool_decide_eq_false in Hmiss.
      rewrite (Source__update_sites_hit env src w c) by done.
      intros [= _ <- <-]. split; [done|]. eexists. split; [done|]. done.
  - intros [= _ <- <-]. split; [done|]. exists []. by rewrite app_nil_r.
Qed.

Lemma TimeSeries_series_step t w r t' w' :
  TimeSeries_series env (t, w) = (r, (t', w')) →
  TimeSeries_identity t' = TimeSeries_identity t
  ∧ cache_state w' = cache_state w
  ∧ ∃ evs, trace w' = trace w ++ evs ∧ count is_cache_call evs = 0.
Proof.
  rewrite TimeSeries_series_run. case_bool_decide; intros [= _ <- <-].
  - split; [done|]. split; [done|]. by eexists.
  - split; [done|]. split; [done|]. exists []. by rewrite app_nil_r.
Qed.

Lemma TimeSeries_quantity_step t w r t' w' :
  TimeSeries_quantity env (t, w) = (r, (t', w')) →
  TimeSeries_identity t' = TimeSeries_identity t
  ∧ cache_state w' = cache_state w
  ∧ ∃ evs, trace w' = trace w ++ evs ∧ count is_cache_call evs = 0.
Proof.
  rewrite TimeSeries_quantity_run.
  destruct (truth_quantity env (TimeSeries__quantity t)); intros [= _ <- <-].
  - split; [done|]. split; [done|]. exists []. by rewrite app_nil_r.
  - split; [done|]. split; [done|]. by eexists.
Qed.

(** Attribute access with any outcome, read back as the run of the
    property behind it. *)
Lemma getattr_any_inv a e w r e' w' :
  getattr env a (e, w) = (r, (e', w')) →
  (e' = e ∧ w' = w)
  ∨ match a, e, e' with
    | acc_sites, ESource src, ESource src' =>
        ∃ r0, Source_sites env (src, w) = (r0, (src', w'))
    | acc_site_info, ESite s, ESite s' =>
        ∃ r0, Site_site_info env (s, w) = (r0, (s', w'))
    | acc_timeseries_list, ESite s, ESite s' =>
        ∃ r0, Site_timeseries_list env (s, w) = (r0, (s', w'))
    | acc_dataframe, ESite s, ESite s' =>
        ∃ r0, Site_dataframe env (s, w) = (r0, (s', w'))
    | acc_series, ETimeSeries t, ETimeSeries t' =>
        ∃ r0, TimeSeries_series env (t, w) = (r0, (t', w'))
    | acc_quantity, ETimeSeries t, ETimeSeries t' =>
        ∃ r0, TimeSeries_quantity env (t, w) = (r0, (t', w'))
    | _, _, _ => False
    end.
Proof.
  destruct a, e as [src|s|t]; cbn [getattr on_source on_site on_series fst snd];
    try (intros [= _ <- <-]; by left).
  - destruct (Source_sites env (src, w)) as [r0 [src1 w1]].
    intros [= _ <- <-]. right. by eexists.
  - destruct (Site_site_info env (s, w)) as [r0 [s1 w1]].
    intros [= _ <- <-]. right. by eexists.
  - destruct (Site_timeseries_list env (s, w)) as [r0 [s1 w1]].
    intros [= _ <- <-]. right. by eexists.
  - destruct (Site_dataframe env (s, w)) as [r0 [s1 w1]].
    intros [= _ <- <-]. right. by eexists.
  - destruct (TimeSeries_series env (t, w)) as [r0 [t1 w1]].
    intros [= _ <- <-]. right. by eexists.
  - destruct (TimeSeries_quantity env (t, w)) as [r0 [t1 w1]].
    intros [= _ <- <-]. right. by eexists.
Qed.

Lemma same_identity_refl e : same_identity (Float:=Float) (Datetime:=Datetime)
                               (Quantity:=Quantity) e e.
Proof. by destruct e. Qed.

(** X14.  No access to a lazy attribute, however it ends, changes what
    the constructor assigned: a Source keeps its URL, client and cache
    switch; a Site its code, name, id, network, location, source and
    cache switch; a TimeSeries its variable, count, method, quality
    control level, dates and site. *)
Theorem getattr_keeps_identity a e w r e' w' :
  getattr env a (e, w) = (r, (e', w')) → same_identity e e'.
Proof.
  intros [[-> _]|H]%getattr_any_inv; [apply same_identity_refl|].
  destruct a, e as [src|s|t], e' as [src'|s'|t']; try done;
    destruct H as [r0 Hrun]; cbn [same_identity]; symmetry.
  - by apply Source_sites_step in Hrun as [? _].
  - by apply Site_site_info_step in Hrun as [? _].
  - by apply Site_timeseries_list_step in Hrun as [? _].
  - by apply Site_dataframe_step in Hrun as [? _].
  - by apply TimeSeries_series_step in Hrun as [? _].
  - by apply TimeSeries_quantity_step in Hrun as [? _].
Qed.

(** X15.  When no cache is in play for an object (its cache switch is
    off, or the cache module is absent; a TimeSeries has none), no
    access to one of its lazy attributes, however it ends, calls an
    entry point of the cache module or changes the cache store; the
    trace only grows. *)
Theorem getattr_without_cache a e w r e' w' :
  cache_off env e = true →
  getattr env a (e, w) = (r, (e', w')) →
  cache_state w' = cache_state w
  ∧ ∃ evs, trace w' = trace w ++ evs ∧ count is_cache_call evs = 0.
Proof.
  intros Hoff [[-> ->]|H]%getattr_any_inv.
  { split; [done|]. exists []. by rewrite app_nil_r. }
  destruct a, e as [src|s|t], e' as [src'|s'|t']; try done;
    destruct H as [r0 Hrun]; cbn [cache_off] in Hoff.
  - apply Source_sites_step in Hrun as [_ (evs & Ht & Hc)].
    destruct (cache_enabled env (Source__use_cache src)); [done|].
    destruct (Hc eq_refl). split; [done|]. by exists evs.
  - apply Site_site_info_step in Hrun as [_ (evs & Ht & Hc)]. cbn [fst snd] in *.
    destruct (cache_enabled env (Site__use_cache s)); [done|].
    destruct (Hc eq_refl). split; [done|]. by exists evs.
  - apply Site_timeseries_list_step in Hrun as [_ (evs & Ht & Hc)]. cbn [fst snd] in *.
    destruct (cache_enabled env (Site__use_cache s)); [done|].
    destruct (Hc eq_refl). split; [done|]. by exists evs.
  - apply Site_dataframe_step in Hrun as [_ (evs & Ht & Hc)]. cbn [fst snd] in *.
    destruct (cache_enabled env (Site__use_cache s)); [done|].
    destruct (Hc eq_refl). split; [done|]. by exists evs.
  - by apply TimeSeries_series_step in Hrun as (_ & ? & ?).
  - by apply TimeSeries_quantity_step in Hrun as (_ & ? & ?).
Qed.

End Accessors.

(** * The further properties on the concrete service *)

(** X1, witness: the cache holds one TimeSeries for the site "01234". *)
Lemma Site_timeseries_list_cache_precedence_witness :
  _get_cached_timeseries_list Demo.cache_of_series (Demo.site_cached "01234")
    (cache_state Demo.world) ≠ []
  ∧ Site_timeseries_list Demo.env_edge (Demo.site_cached "01234", Demo.world)
    = (Return [Demo.timeseries Demo.discharge],
       (Site_set__timeseries_list [Demo.timeseries Demo.discharge]
          (Demo.site_cached "01234"),
        extend Demo.world
          [Called (cache__get_cached_timeseries_list
                     (Site_ref (Demo.site_cached "01234")));
           Assigned A_timeseries_list])).
Proof.
  assert (_get_cached_timeseries_list Demo.cache_of_series
            (Demo.site_cached "01234") (cache_state Demo.world) ≠ []) as Hne
    by discriminate.
  split; [exact Hne|].
  exact (proj1 (Site_timeseries_list_cache_precedence Demo.env_edge
                  (Demo.site_cached "01234") Demo.world Demo.cache_of_series
                  eq_refl eq_refl eq_refl Hne)).
Defined.

(** X2, witness: the cache holds nothing for the site "same-code". *)
Lemma Site_timeseries_list_cache_population_witness :
  single (Site_response Demo.env_edge (Demo.site_cached "same-code"))
    [Demo.wml_discharge; Demo.wml_discharge_late]
  ∧ (Site_timeseries_list Demo.env_edge (Demo.site_cached "same-code", Demo.world)).1
    = Return (Site_catalog (Demo.site_cached "same-code")
                [Demo.wml_discharge; Demo.wml_discharge_late])
  ∧ count is_cache_call
      (trace (Site_timeseries_list Demo.env_edge
                (Demo.site_cached "same-code", Demo.world)).2.2) = 2.
Proof.
  assert (single (Site_response Demo.env_edge (Demo.site_cached "same-code"))
            [Demo.wml_discharge; Demo.wml_discharge_late]) as Hsingle
    by reflexivity.
  split; [exact Hsingle|].
  rewrite (Site_timeseries_list_cache_population Demo.env_edge
             (Demo.site_cached "same-code") Demo.world Demo.cache_of_series
             [Demo.wml_discharge; Demo.wml_discharge_late]
             eq_refl eq_refl eq_refl eq_refl eq_refl Hsingle).
  split; reflexivity.
Defined.

(** X3, witness: the site "no-sites". *)
Lemma Site_payload_without_site_entry_witness :
  SiteInfoResponse_site (Site_response Demo.env_edge (Demo.site "no-sites")) = []
  ∧ (Site_timeseries_list Demo.env_edge (Demo.site "no-sites", Demo.world)).1
    = Raise IndexError
  ∧ (Site_timeseries_list Demo.env_edge
       (Site_timeseries_list Demo.env_edge (Demo.site "no-sites", Demo.world)).2).1
    = Raise IndexError.
Proof.
  split; [reflexivity|].
  destruct (Site_payload_without_site_entry Demo.env_edge (Demo.site "no-sites")
              Demo.world eq_refl eq_refl eq_refl eq_refl) as (H1 & _ & H2).
  rewrite H1. split; [reflexivity|]. cbn [snd]. by rewrite H2.
Defined.

(** X4, witness: the site "no-catalogs". *)
Lemma Site_payload_without_series_catalog_witness :
  SiteInfoResponse_site (Site_response Demo.env_edge (Demo.site "no-catalogs"))
  = [ {| seriesCatalog := [] |} ]
  ∧ (Site_site_info Demo.env_edge (Demo.site "no-catalogs", Demo.world)).1
    = Return (Some (Site_response Demo.env_edge (Demo.site "no-catalogs")))
  ∧ (Site_timeseries_list Demo.env_edge (Demo.site "no-catalogs", Demo.world)).1
    = Raise IndexError.
Proof.
  split; [reflexivity|].
  destruct (Site_payload_without_series_catalog Demo.env_edge
              (Demo.site "no-catalogs") Demo.world
              eq_refl eq_refl eq_refl eq_refl) as (H1 & H2 & _).
  rewrite H1, H2. split; reflexivity.
Defined.

(** X5, witness: the site "bare", after [site_info] has stored its
    payload. *)
Lemma Site_dataframe_fetches_site_detail_again_witness :
  Site__site_info
    (Site_set__site_info (Some (Site_response Demo.env (Demo.site "bare")))
       (Demo.site "bare"))
  = Some (Site_response Demo.env (Demo.site "bare"))
  ∧ ∃ evs,
      trace (Site_dataframe Demo.env
               (Site_set__site_info
                  (Some (Site_response Demo.env (Demo.site "bare")))
                  (Demo.site "bare"),
                Demo.world)).2.2
      = trace Demo.world
        ++ Called (Site_request (Demo.site "bare")) :: Assigned A_site_info :: evs.
Proof.
  split; [reflexivity|].
  destruct (Site_dataframe Demo.env
              (Site_set__site_info
                 (Some (Site_response Demo.env (Demo.site "bare")))
                 (Demo.site "bare"),
               Demo.world)) as [r st'] eqn:Hrun.
  exact (Site_dataframe_fetches_site_detail_again Demo.env
           (Site_set__site_info
              (Some (Site_response Demo.env (Demo.site "bare")))
              (Demo.site "bare"))
           Demo.world r st' eq_refl Hrun).
Defined.

(** X6, witness: the site "two-sites". *)
Lemma Site_dataframe_refuses_every_time_witness :
  multiple (Site_response Demo.env (Demo.site "two-sites"))
  ∧ (Site_dataframe Demo.env (Demo.site "two-sites", Demo.world)).1
    = Raise NotImplementedError
  ∧ (Site_dataframe Demo.env
       (Site_dataframe Demo.env (Demo.site "two-sites", Demo.world)).2).1
    = Raise NotImplementedError.
Proof.
  assert (multiple (Site_response Demo.env (Demo.site "two-sites"))) as Hmult
    by (left; vm_compute; lia).
  split; [exact Hmult|].
  destruct (Site_dataframe_refuses_every_time Demo.env (Demo.site "two-sites")
              Demo.world eq_refl Hmult) as (H1 & H2 & _).
  rewrite H1. split; [reflexivity|]. cbn [snd]. by rewrite H2.
Defined.

(** X7, witness: the site "01234". *)
Lemma Site_variables_of_the_catalog_witness :
  single (Site_response Demo.env (Demo.site "01234"))
    [Demo.wml_discharge; Demo.wml_gage_height]
  ∧ (Site_variables Demo.env (Demo.site "01234", Demo.world)).1
    = Return [Demo.discharge; Demo.gage_height].
Proof.
  assert (single (Site_response Demo.env (Demo.site "01234"))
            [Demo.wml_discharge; Demo.wml_gage_height]) as Hsingle
    by reflexivity.
  split; [exact Hsingle|].
  destruct (Site_variables_of_the_catalog Demo.env (Demo.site "01234") Demo.world
              [Demo.wml_discharge; Demo.wml_gage_height]
              eq_refl eq_refl eq_refl Hsingle) as [H _].
  rewrite H. reflexivity.
Defined.

(** X8, witness: the site "same-code" has two series and one variable
    code. *)
Lemma Site_dataframe_columns_are_the_variable_codes_witness :
  single (Site_response Demo.env_edge (Demo.site "same-code"))
    [Demo.wml_discharge; Demo.wml_discharge_late]
  ∧ ∃ frame,
      (Site_dataframe Demo.env_edge (Demo.site "same-code", Demo.world)).1
      = Return (Some frame)
      ∧ dom (DataFrame_data frame) = list_to_set ["00060"; "00060"].
Proof.
  assert (single (Site_response Demo.env_edge (Demo.site "same-code"))
            [Demo.wml_discharge; Demo.wml_discharge_late]) as Hsingle
    by reflexivity.
  split; [exact Hsingle|].
  destruct (Site_dataframe_columns_are_the_variable_codes Demo.env_edge
              (Demo.site "same-code") Demo.world
              [Demo.wml_discharge; Demo.wml_discharge_late]
              eq_refl eq_refl eq_refl Hsingle) as (frame & Hrun & Hdom & _).
  exists frame. split; [exact Hrun|exact Hdom].
Defined.

(** X9, witness: of the two discharge series of the site "same-code",
    the later one fills the column. *)
Lemma Site_dataframe_last_series_wins_witness :
  ∃ frame,
    (Site_dataframe Demo.env_edge (Demo.site "same-code", Demo.world)).1
    = Return (Some frame)
    ∧ DataFrame_data frame !! "00060" = Some [(1%Z, 50%Z)].
Proof.
  destruct (Site_dataframe_last_series_wins Demo.env_edge
              (Demo.site "same-code") Demo.world
              [Demo.wml_discharge; Demo.wml_discharge_late]
              (Site_catalog (Demo.site "same-code") [Demo.wml_discharge])
              {| TimeSeries_variable := Demo.discharge;
                 TimeSeries_count := 1%Z;
                 TimeSeries_method := "";
                 TimeSeries_quality_control_level := "0";
                 TimeSeries_begin_datetime := 1%Z;
                 TimeSeries_end_datetime := 1%Z;
                 TimeSeries_site := Site_ref (Demo.site "same-code");
                 TimeSeries__series := [];
                 TimeSeries__quantity := None |}
              []
              eq_refl eq_refl eq_refl eq_refl eq_refl (not_elem_of_nil _))
    as (frame & Hrun & Hcol).
  exists frame. split; [exact Hrun|exact Hcol].
Defined.

(** X10, witness: the Source of the concrete service. *)
Lemma Source_sites_keyed_by_code_witness :
  ∃ m,
    (Source_sites Demo.env (Demo.source false, Demo.world)).1 = Return m
    ∧ dom m = list_to_set ["01234"]
    ∧ ∀ k site, m !! k = Some site → Site_code site = k.
Proof.
  destruct (Source_sites_keyed_by_code Demo.env (Demo.source false) Demo.world
              eq_refl eq_refl) as (m & Hrun & _ & Hkey & Hdom & _).
  exists m. split; [exact Hrun|]. split; [exact Hdom|].
  intros k site Hk. exact (proj1 (Hkey k site Hk)).
Defined.

(** X11, witness: the discharge series comes with the quantity "cfs". *)
Lemma TimeSeries_series_then_quantity_witness :
  Quantity_bool Demo.env
    (TimeSeries_response Demo.env (Demo.timeseries Demo.discharge)).2 = true
  ∧ (TimeSeries_quantity Demo.env
       (TimeSeries_series Demo.env (Demo.timeseries Demo.discharge, Demo.world)).2).1
    = Return (Some "cfs")
  ∧ count is_remote
      (trace (TimeSeries_quantity Demo.env
                (TimeSeries_series Demo.env
                   (Demo.timeseries Demo.discharge, Demo.world)).2).2.2) = 1.
Proof.
  split; [reflexivity|].
  rewrite (TimeSeries_series_then_quantity Demo.env
             (Demo.timeseries Demo.discharge) Demo.world eq_refl eq_refl).
  split; reflexivity.
Defined.

(** X12, witness: the discharge series has two values. *)
Lemma TimeSeries_quantity_then_series_witness :
  (TimeSeries_response Demo.env (Demo.timeseries Demo.discharge)).1 ≠ []
  ∧ (TimeSeries_series Demo.env
       (TimeSeries_quantity Demo.env (Demo.timeseries Demo.discharge, Demo.world)).2).1
    = Return [(0%Z, 10%Z); (1%Z, 20%Z)]
  ∧ count is_remote
      (trace (TimeSeries_series Demo.env
                (TimeSeries_quantity Demo.env
                   (Demo.timeseries Demo.discharge, Demo.world)).2).2.2) = 1.
Proof.
  assert ((TimeSeries_response Demo.env (Demo.timeseries Demo.discharge)).1 ≠ [])
    as Hne by discriminate.
  split; [exact Hne|].
  rewrite (TimeSeries_quantity_then_series Demo.env
             (Demo.timeseries Demo.discharge) Demo.world eq_refl Hne).
  split; reflexivity.
Defined.

(** X13, witness: in the edge service the gage-height series comes with
    a quantity that is false. *)
Lemma TimeSeries_false_quantity_is_fetched_again_witness :
  TimeSeries_paired Demo.env_edge
    (TimeSeries_fetched Demo.env_edge (Demo.timeseries Demo.gage_height))
  ∧ populated Demo.env_edge acc_series
      (ETimeSeries (TimeSeries_fetched Demo.env_edge
                      (Demo.timeseries Demo.gage_height))) = true
  ∧ count is_remote
      (trace (TimeSeries_quantity Demo.env_edge
                (TimeSeries_fetched Demo.env_edge
                   (Demo.timeseries Demo.gage_height), Demo.world)).2.2) = 1.
Proof.
  assert (TimeSeries_paired Demo.env_edge
            (TimeSeries_fetched Demo.env_edge (Demo.timeseries Demo.gage_height)))
    as Hpaired by (split; reflexivity).
  split; [exact Hpaired|]. split; [reflexivity|].
  destruct (TimeSeries_false_quantity_is_fetched_again Demo.env_edge
              (TimeSeries_fetched Demo.env_edge (Demo.timeseries Demo.gage_height))
              Demo.world Hpaired eq_refl) as (Hrun & _).
  rewrite Hrun. reflexivity.
Defined.

(** X14, witness: [dataframe] on the site "01234". *)
Lemma getattr_keeps_identity_witness :
  same_identity (ESite (Demo.site "01234"))
    (getattr Demo.env acc_dataframe (ESite (Demo.site "01234"), Demo.world)).2.1.
Proof.
  destruct (getattr Demo.env acc_dataframe (ESite (Demo.site "01234"), Demo.world))
    as [r [e' w']] eqn:Hrun.
  exact (getattr_keeps_identity Demo.env acc_dataframe
           (ESite (Demo.site "01234")) Demo.world r e' w' Hrun).
Defined.

(** X15, witness: [dataframe] on the site "01234", whose cache switch is
    off, in the service that has a cache module. *)
Lemma getattr_without_cache_witness :
  cache_off Demo.env_edge (ESite (Demo.site "01234")) = true
  ∧ cache_state
      (getattr Demo.env_edge acc_dataframe
         (ESite (Demo.site "01234"), Demo.world)).2.2
    = cache_state Demo.world.
Proof.
  split; [reflexivity|].
  destruct (getattr Demo.env_edge acc_dataframe
              (ESite (Demo.site "01234"), Demo.world))
    as [r [e' w']] eqn:Hrun.
  exact (proj1 (getattr_without_cache Demo.env_edge acc_dataframe
                  (ESite (Demo.site "01234")) Demo.world r e' w' eq_refl Hrun)).
Defined.

(** X16, witness: in the edge service the truth test of a frame raises
    [ValueError]. *)
Lemma Site_dataframe_truth_test_raises_witness :
  (∀ df, DataFrame_bool Demo.env_edge df = Raise ValueError)
  ∧ (Site_dataframe Demo.env_edge
       (Site_dataframe Demo.env_edge (Demo.site "01234", Demo.world)).2).1
    = Raise ValueError.
Proof.
  assert (∀ df, DataFrame_bool Demo.env_edge df = Raise ValueError) as Hraise
    by (intros df; reflexivity).
  split; [exact Hraise|].
  rewrite (Site_dataframe_truth_test_raises Demo.env_edge (Demo.site "01234")
             Demo.world [Demo.wml_discharge; Demo.wml_gage_height] ValueError
             eq_refl eq_refl eq_refl eq_refl).
  - reflexivity.
  - discriminate.
  - exact Hraise.
Defined.

(** X17, witness: a list of two series, the first one already fetched. *)
Lemma Site_dataframe_fetches_only_empty_series_witness :
  count is_remote
    (trace (Site_dataframe Demo.env
              (Site_set__timeseries_list
                 [TimeSeries_fetched Demo.env (Demo.timeseries Demo.discharge);
                  Demo.timeseries Demo.gage_height]
                 (Demo.site "01234"), Demo.world)).2.2) = 1
  ∧ count is_GetSiteInfoObject
      (trace (Site_dataframe Demo.env
                (Site_set__timeseries_list
                   [TimeSeries_fetched Demo.env (Demo.timeseries Demo.discharge);
                    Demo.timeseries Demo.gage_height]
                   (Demo.site "01234"), Demo.world)).2.2) = 0.
Proof.
  destruct (Site_dataframe_fetches_only_empty_series Demo.env
              (Site_set__timeseries_list
                 [TimeSeries_fetched Demo.env (Demo.timeseries Demo.discharge);
                  Demo.timeseries Demo.gage_height]
                 (Demo.site "01234"))
              Demo.world) as [Hrun _].
  - discriminate.
  - reflexivity.
  - rewrite Hrun. split; reflexivity.
Defined.

(** X18, witness *)
Lemma Site_coordinates_round_trip_witness :
  Some 30%Z = Some (Site_latitude (Demo.site "01234"))
  ∧ Some (-97)%Z = Some (Site_longitude (Demo.site "01234")).
Proof.
  exact (Site_coordinates_round_trip "01234" "Example River" 7%Z "NWISDV"
           (Some 30%Z) (Some (-97)%Z) (Source_ref (Demo.source false)) false
           Demo.world (Demo.site "01234") Demo.world eq_refl).
Defined.
